(** * Shotcraft inventory: the reconciliation core of [app.py]

    A shallow embedding of [compute_results] (app.py, lines 51-73): the left
    join of the per-case formula with the on-hand table, the numeric
    coercion of both quantity columns, the Required / Remaining columns, the
    number of sellable cases, the shortage table and the sorted display
    table.

    Numbers are IEEE 754 binary64 values (Python's [float], pandas'
    [float64]), taken as Rocq's primitive floats.  A data frame is the list
    of its rows, in row order; each frame schema of the program is a record:
    [components] has the columns Component, Per_Case, UOM and [onhand_df]
    the columns Component, On_Hand, which is what
    [load_components_and_onhand] and the editing table of the page hand to
    [compute_results].  Component cells are text: a string of bytes, the
    UTF-8 encoding of the Python [str]. *)

From Stdlib Require Import ZArith List String Ascii Bool Lia Floats.
From Stdlib Require Import Permutation Sorted.
From stdpp Require Import base list sorting.
Import ListNotations.

Local Open Scope Z_scope.

(** ** Cells *)

(** A spreadsheet cell as [pd.to_numeric(_, errors="coerce")] tells cells
    apart: a number (an integer cell stands for its float64 value, and text
    that reads as a number for the number it reads as), an empty cell
    ([None] / NaN), or text that does not read as a number. *)
Inductive cell : Type :=
| CNum (x : float)
| CMissing
| CText (s : string).

(** ** Frame schemas *)

Module Formula.
(** A row of [components]. *)
Record row : Type := mk
  { Component : string; Per_Case : cell; UOM : cell }.
End Formula.

Module Stock.
(** A row of [onhand_df]. *)
Record row : Type := mk
  { Component : string; On_Hand : cell }.
End Stock.

Module Merged.
(** A row of [df] once it has an On_Hand column (after line 56). *)
Record row : Type := mk
  { Component : string; Per_Case : cell; UOM : cell; On_Hand : cell }.
End Merged.

Module Row.
(** A row of [df] after line 62, restricted to the six columns that
    [display] and [shortages] select. *)
Record row : Type := mk
  { Component : string; UOM : cell; On_Hand : float; Per_Case : float;
    Required : float; Remaining : float }.
End Row.

(** ** Line 54: [df.merge(onhand_df, on="Component", how="left")] *)

(** The rows of the right frame whose key equals the key of [f], in the
    order of the right frame.  Keys are compared as Python compares [str]
    values: character by character, nothing folded or stripped. *)
Definition matching (f : Formula.row) (onhand : list Stock.row) : list Stock.row :=
  List.filter (fun s => String.eqb (Stock.Component s) (Formula.Component f)) onhand.

Definition with_on_hand (f : Formula.row) (c : cell) : Merged.row :=
  Merged.mk (Formula.Component f) (Formula.Per_Case f) (Formula.UOM f) c.

(** A left row is emitted once per matching right row, and once with an
    empty On_Hand when nothing matches. *)
Definition merge_row (onhand : list Stock.row) (f : Formula.row) : list Merged.row :=
  match matching f onhand with
  | [] => [with_on_hand f CMissing]
  | ms => List.map (fun s => with_on_hand f (Stock.On_Hand s)) ms
  end.

Definition merge (components : list Formula.row) (onhand : list Stock.row)
  : list Merged.row :=
  List.flat_map (merge_row onhand) components.

(** ** Lines 52-56: [df] with its On_Hand column *)

(** With the two schemas above, ["On_Hand" not in df.columns] holds exactly
    when no on-hand table was passed. *)
Definition attach_on_hand (components : list Formula.row)
    (onhand_df : option (list Stock.row)) : list Merged.row :=
  match onhand_df with
  | Some onhand => merge components onhand
  | None => List.map (fun f => with_on_hand f (CNum 0%float)) components
  end.

(** ** Lines 58-59: [pd.to_numeric(_, errors="coerce").fillna(0.0)] *)

Definition to_numeric (c : cell) : float :=
  match c with
  | CNum x => x
  | CMissing | CText _ => nan
  end.

Definition fillna (x : float) (value : float) : float :=
  if is_nan x then value else x.

Definition normalize (c : cell) : float := fillna (to_numeric c) 0%float.

(** ** Lines 58-62: the numeric columns, Required and Remaining *)

Definition derive (cases_sold : float) (m : Merged.row) : Row.row :=
  let per_case := normalize (Merged.Per_Case m) in
  let on_hand := normalize (Merged.On_Hand m) in
  let required := (per_case * cases_sold)%float in
  Row.mk (Merged.Component m) (Merged.UOM m) on_hand per_case
         required (on_hand - required)%float.

(** ** Lines 64-69: the number of sellable cases *)

(** The mask [df["Per_Case"] > 0] and the rows it selects. *)
Definition is_candidate (r : Row.row) : bool := (0 <? Row.Per_Case r)%float.

Definition candidates (df : list Row.row) : list Row.row :=
  List.filter is_candidate df.

(** The lambda of line 66. *)
Definition MaxCasesByItem (r : Row.row) : float :=
  if (0 <? Row.Per_Case r)%float
  then (Row.On_Hand r / Row.Per_Case r)%float
  else infinity.

Definition fmin (acc x : float) : float := if (x <? acc)%float then x else acc.

(** [Series.min()] (skipna): NaN entries are left out; the minimum of what
    remains, or NaN when nothing remains. *)
Definition series_min (xs : list float) : float :=
  match List.filter (fun x => negb (is_nan x)) xs with
  | [] => nan
  | x :: rest => fold_left fmin rest x
  end.

(** [math.floor]: the largest integer not above [x]; [None] stands for the
    exception it raises on NaN (ValueError) and on an infinity
    (OverflowError). *)
Definition math_floor (x : float) : option Z :=
  match Prim2SF x with
  | S754_zero _ => Some 0
  | S754_finite s m e => Some (Z.shiftl (cond_Zopp s (Zpos m)) e)
  | S754_infinity _ | S754_nan => None
  end.

Definition max_sellable (df : list Row.row) : option Z :=
  match candidates df with
  | _ :: _ => math_floor (series_min (List.map MaxCasesByItem df))
  | [] => Some 0
  end.

(** ** Line 71: the shortage table *)

Definition shortages (df : list Row.row) : list Row.row :=
  List.filter (fun r => (Row.Remaining r <? 0)%float) df.

(** ** Line 72: the display table *)

(** Python orders [str] values by code point, which on UTF-8 encoded
    strings is the bytewise lexicographic order of [String.leb]. *)
Definition component_le (r1 r2 : Row.row) : Prop :=
  String.leb (Row.Component r1) (Row.Component r2) = true.

#[global] Instance component_le_dec : RelDecision component_le :=
  fun r1 r2 => decide (String.leb (Row.Component r1) (Row.Component r2) = true).

(** [sort_values("Component")]: ascending, by the one key.  pandas does not
    promise an order among rows with equal keys; nothing below relies on
    the one this sort happens to produce. *)
Definition sort_values (df : list Row.row) : list Row.row :=
  merge_sort component_le df.

Definition display (df : list Row.row) : list Row.row := sort_values df.

(** ** Lines 51-73: [compute_results] *)

(** The frame [df] as it stands after line 62. *)
Definition reconcile (components : list Formula.row)
    (onhand_df : option (list Stock.row)) (cases_sold : float) : list Row.row :=
  List.map (derive cases_sold) (attach_on_hand components onhand_df).

(** [None] when [math.floor] raises; otherwise the returned triple
    [(display, int(max_sellable), shortages)]. *)
Definition compute_results (components : list Formula.row)
    (onhand_df : option (list Stock.row)) (cases_sold : float)
  : option (list Row.row * Z * list Row.row) :=
  let df := reconcile components onhand_df cases_sold in
  match max_sellable df with
  | Some m => Some (display df, m, shortages df)
  | None => None
  end.

(** ** The same function over a store of frame objects

    pandas frames are mutable objects reached through references, and
    [compute_results] assigns columns of [df] in place.  [Store] replays the
    function statement by statement on a heap of frames, telling the
    operations that build a new frame ([copy], [merge], row selection,
    [sort_values]) from the column assignments that change an existing
    one. *)
Module Store.

Inductive frame : Type :=
| FormulaFrame (rows : list Formula.row)
| StockFrame (rows : list Stock.row)
| MergedFrame (rows : list Merged.row)
| WorkFrame (rows : list Row.row) (max_cases : option (list float)).

Abbreviation loc := nat (only parsing).
Abbreviation heap := (list frame) (only parsing).

(** A computation on the heap; [None] as result is a raised exception,
    and the heap is threaded through either way. *)
Definition M (A : Type) : Type := heap -> option A * heap.

Definition ret {A} (a : A) : M A := fun h => (Some a, h).
Definition raise {A} : M A := fun h => (None, h).
Definition bind {A B} (m : M A) (k : A -> M B) : M B :=
  fun h => match m h with
           | (Some a, h') => k a h'
           | (None, h') => (None, h')
           end.

Notation "'do' x <- m ; k" := (bind m (fun x => k))
  (at level 10, x binder, m at level 100, k at level 200).

Definition read (l : loc) : M frame :=
  fun h => (h !! l, h).
Definition alloc (f : frame) : M loc :=
  fun h => (Some (length h), h ++ [f]).
Definition write (l : loc) (f : frame) : M unit :=
  fun h => (Some tt, <[l := f]> h).
Definition lift {A} (o : option A) : M A := fun h => (o, h).

(** Line 52, [components.copy()]: a new frame with the same rows. *)
Definition copy (l : loc) : M loc :=
  do f <- read l ; alloc f.

(** Line 54, [df.merge(onhand_df, ...)]: a new frame. *)
Definition merge_frames (df onhand_df : loc) : M loc :=
  do f <- read df ;
  do s <- read onhand_df ;
  match f, s with
  | FormulaFrame rows, StockFrame onhand => alloc (MergedFrame (merge rows onhand))
  | _, _ => raise
  end.

(** Line 55, ["On_Hand" in df.columns]. *)
Definition has_on_hand (df : loc) : M bool :=
  do f <- read df ;
  match f with
  | FormulaFrame _ => ret false
  | StockFrame _ | MergedFrame _ | WorkFrame _ _ => ret true
  end.

(** Line 56, [df["On_Hand"] = 0.0]: assigns a column of [df] in place. *)
Definition set_on_hand (df : loc) (x : float) : M unit :=
  do f <- read df ;
  match f with
  | FormulaFrame rows =>
      write df (MergedFrame (List.map (fun r => with_on_hand r (CNum x)) rows))
  | _ => raise
  end.

(** Lines 58-62: four column assignments to [df], in place. *)
Definition set_metrics (df : loc) (cases_sold : float) : M unit :=
  do f <- read df ;
  match f with
  | MergedFrame rows => write df (WorkFrame (List.map (derive cases_sold) rows) None)
  | _ => raise
  end.

Definition work_rows (df : loc) : M (list Row.row) :=
  do f <- read df ;
  match f with
  | WorkFrame rows _ => ret rows
  | _ => raise
  end.

(** [df[mask]]: the selected rows, as a new frame. *)
Definition select (df : loc) (mask : Row.row -> bool) : M loc :=
  do rows <- work_rows df ;
  alloc (WorkFrame (List.filter mask rows) None).

Definition is_empty (df : loc) : M bool :=
  do rows <- work_rows df ;
  ret (match rows with [] => true | _ => false end).

(** Line 66, [df["MaxCasesByItem"] = df.apply(...)]: in place. *)
Definition set_max_cases (df : loc) : M unit :=
  do rows <- work_rows df ;
  write df (WorkFrame rows (Some (List.map MaxCasesByItem rows))).

Definition max_cases_column (df : loc) : M (list float) :=
  do f <- read df ;
  match f with
  | WorkFrame _ (Some col) => ret col
  | _ => raise
  end.

(** Line 72: the six columns of [df], sorted, as a new frame. *)
Definition sorted_copy (df : loc) : M loc :=
  do rows <- work_rows df ;
  alloc (WorkFrame (sort_values rows) None).

Definition compute_results (components : loc) (onhand_df : option loc)
    (cases_sold : float) : M (loc * Z * loc) :=
  do df <- copy components ;
  do df <- match onhand_df with
           | Some o => merge_frames df o
           | None => ret df
           end ;
  do has <- has_on_hand df ;
  do _ <- (if has then ret tt else set_on_hand df 0%float) ;
  do _ <- set_metrics df cases_sold ;
  do candidates <- select df is_candidate ;
  do empty <- is_empty candidates ;
  do max_sellable <- (if negb empty
                   then do _ <- set_max_cases df ;
                        do col <- max_cases_column df ;
                        lift (math_floor (series_min col))
                   else ret 0) ;
  do shortages <- select df (fun r => (Row.Remaining r <? 0)%float) ;
  do display <- sorted_copy df ;
  ret (display, max_sellable, shortages).

(** The on-hand argument, a reference or [None], stands for the rows
    [rows] in the heap [h]. *)
Definition points_to (h : heap) (l : option loc) (rows : option (list Stock.row))
  : Prop :=
  match l, rows with
  | Some l, Some onhand => h !! l = Some (StockFrame onhand)
  | None, None => True
  | _, _ => False
  end.

(** What a caller sees of a call: the frames behind the two returned
    references and the integer, or [None] for an exception. *)
Definition view (r : option (loc * Z * loc) * heap)
  : option (option frame * Z * option frame) :=
  match r with
  | (Some (display, max_sellable, shortages), h) =>
      Some (h !! display, max_sellable, h !! shortages)
  | (None, _) => None
  end.

(** The same for the triple of the function on rows: each returned table
    as a frame of its own. *)
Definition returned (res : option (list Row.row * Z * list Row.row))
  : option (option frame * Z * option frame) :=
  match res with
  | Some (display, max_sellable, shortages) =>
      Some (Some (WorkFrame display None), max_sellable,
            Some (WorkFrame shortages None))
  | None => None
  end.

End Store.

(** Two on-hand arguments with the same rows, up to row order. *)
Definition same_stock (a b : option (list Stock.row)) : Prop :=
  match a, b with
  | Some rows, Some rows' => Permutation rows rows'
  | None, None => True
  | _, _ => False
  end.

(** ** Predicates used in the statements *)

(** The two derived columns of one row, as lines 61 and 62 compute them. *)
Definition metrics_hold (cases_sold : float) (r : Row.row) : Prop :=
  Row.Required r = (Row.Per_Case r * cases_sold)%float
  /\ Row.Remaining r = (Row.On_Hand r - Row.Required r)%float.

(** The row that lines 58-62 make of a merged row: its Component and
    UOM, its two quantities made numeric, and Required and Remaining
    computed from the merged row's quantities. *)
Definition derived_from (cases_sold : float) (m : Merged.row) (r : Row.row) : Prop :=
  Row.Component r = Merged.Component m
  /\ Row.UOM r = Merged.UOM m
  /\ Row.Per_Case r = normalize (Merged.Per_Case m)
  /\ Row.On_Hand r = normalize (Merged.On_Hand m)
  /\ Row.Required r = (normalize (Merged.Per_Case m) * cases_sold)%float
  /\ Row.Remaining r
     = (normalize (Merged.On_Hand m) - normalize (Merged.Per_Case m) * cases_sold)%float.

(** An On_Hand cell of the formula entry [f] after lines 52-56: 0.0 when
    no stock table was passed; otherwise the On_Hand of a stock row of the
    same Component, or an empty cell when there is no such row. *)
Definition stock_cell (onhand_df : option (list Stock.row)) (f : Formula.row)
    (c : cell) : Prop :=
  match onhand_df with
  | Some onhand =>
      (exists s, In s onhand /\ Stock.Component s = Formula.Component f
                 /\ c = Stock.On_Hand s)
      \/ ((forall s, In s onhand -> Stock.Component s <> Formula.Component f)
          /\ c = CMissing)
  | None => c = CNum 0%float
  end.

(** The order of the Component values themselves. *)
Definition string_le (a b : string) : Prop := String.leb a b = true.

(** [keeps n m Q]: run in a heap of at least [n] objects, [m] leaves the
    first [n] objects as they are and does not shrink the heap, and a
    returned value satisfies [Q]. *)
Definition keeps (n : nat) {A} (m : Store.M A) (Q : A -> Prop) : Prop :=
  forall h : list Store.frame, (n <= length h)%nat ->
    take n (snd (m h)) = take n h
    /\ (length h <= length (snd (m h)))%nat
    /\ forall a, fst (m h) = Some a -> Q a.

(** A reference to a frame that was not among the first [n] objects. *)
Definition fresh_from (n : nat) (l : nat) : Prop := (n <= l)%nat.

(** ** Notions of the specification that the program does not compute *)

Module Spec.

(** Material identity as the specification normalises it before it
    compares two of them (section 3: "lowercased, trimmed"), on ASCII
    letters and ASCII white space. *)
Definition lower_ascii (c : ascii) : ascii :=
  let n := nat_of_ascii c in
  if ((65 <=? n) && (n <=? 90))%nat then ascii_of_nat (n + 32) else c.

Fixpoint lowercase (s : string) : string :=
  match s with
  | EmptyString => EmptyString
  | String c s' => String (lower_ascii c) (lowercase s')
  end.

Definition is_space (c : ascii) : bool :=
  let n := nat_of_ascii c in
  ((9 <=? n) && (n <=? 13) || (n =? 32))%nat.

Fixpoint lstrip (s : string) : string :=
  match s with
  | EmptyString => EmptyString
  | String c s' => if is_space c then lstrip s' else s
  end.

Fixpoint rstrip (s : string) : string :=
  match s with
  | EmptyString => EmptyString
  | String c s' =>
      match rstrip s' with
      | EmptyString => if is_space c then EmptyString else String c EmptyString
      | t => String c t
      end
  end.

Definition normalized_identity (s : string) : string :=
  lowercase (rstrip (lstrip s)).

(** Ascending, case-insensitive order of material identities
    (section 4.3). *)
Fixpoint ascending_ignoring_case (names : list string) : bool :=
  match names with
  | [] => true
  | a :: rest =>
      match rest with
      | [] => true
      | b :: _ => String.leb (lowercase a) (lowercase b)
      end && ascending_ignoring_case rest
  end.

Definition ratio (r : Row.row) : float := (Row.On_Hand r / Row.Per_Case r)%float.

(** Section 4.4: the floor of the least ratio among the rows with
    [perUnit > 0], and 0 when there is no such row. *)
Definition maxFulfillable (rows : list Row.row) : option Z :=
  match List.filter is_candidate rows with
  | [] => Some 0
  | with_per_unit => math_floor (series_min (List.map ratio with_per_unit))
  end.

(** Section 4.4: the material of the row with the least ratio among the
    rows with [perUnit > 0], ties going to the smaller identity; none when
    there is no such row. *)
Definition better (r best : Row.row) : bool :=
  (ratio r <? ratio best)%float
  || ((ratio r =? ratio best)%float
      && String.ltb (Row.Component r) (Row.Component best)).

Definition constrainingMaterial (rows : list Row.row) : option string :=
  match List.filter is_candidate rows with
  | [] => None
  | r :: rest =>
      Some (Row.Component
              (fold_left (fun best r' => if better r' best then r' else best) rest r))
  end.

End Spec.

(** ** Sample tables *)

Module Sample.

Local Open Scope string_scope.

Definition bottle : Formula.row := Formula.mk "Bottle" (CNum 1) (CText "ea").
Definition cap : Formula.row := Formula.mk "Cap" (CNum 1) (CText "ea").
Definition label : Formula.row := Formula.mk "Label" (CNum 0) (CText "ea").

(** Scenario A of the specification. *)
Definition formula : list Formula.row := [bottle; cap].
Definition stock : list Stock.row :=
  [Stock.mk "Bottle" (CNum 10); Stock.mk "Cap" (CNum 5)].

(** The same materials with the stock levels exchanged. *)
Definition stock_swapped : list Stock.row :=
  [Stock.mk "Bottle" (CNum 5); Stock.mk "Cap" (CNum 10)].

(** Scenario B: no stock row for Cap. *)
Definition stock_no_cap : list Stock.row := [Stock.mk "Bottle" (CNum 2)].

(** Cap counted twice. *)
Definition stock_cap_twice : list Stock.row :=
  [Stock.mk "Cap" (CNum 5); Stock.mk "Cap" (CNum 7)].

(** Cap spelled in lower case and padded. *)
Definition stock_cap_lower : list Stock.row := [Stock.mk " cap " (CNum 5)].

Definition mixed_case : list Formula.row :=
  [Formula.mk "apple" (CNum 1) (CText "kg"); Formula.mk "Zinc" (CNum 1) (CText "kg")].

End Sample.

(** ** Lines 16-49: [load_components_and_onhand] *)

Local Open Scope string_scope.

(** A header cell as [pd.read_excel] gives it: a [str], or a label of
    another type (a number, a date), which has no method [lower]. *)
Inductive header : Type :=
| HText (name : string)
| HOther.

(** A frame whose columns are known only at run time, as [pd.read_excel]
    returns it: the columns in sheet order, each with its header and one
    cell per row.  The headers of a sheet are, as [read_excel] makes them,
    pairwise distinct, so that a column is known by its header. *)
Definition sheet : Type := list (header * list cell).

(** [sheets_dict]: the sheets of the workbook by name, in workbook order. *)
Definition workbook : Type := list (string * sheet).

(** What a call gives: the triple [(components, onhand_df, pick)]; the
    triple of [None] returned after the page has shown the Per_Case
    message; the IndexError of [list(...)[0]] on an empty list; or the
    AttributeError of [c.lower()] on a header that is not text. *)
Inductive loaded : Type :=
| Loaded (components : sheet) (onhand_df : option sheet) (pick : string)
| NoPerCase
| IndexError
| AttributeError.

Section Load.

(** Python's [str.lower] and [str.strip]. *)
Variables lower strip : string -> string.

(** Line 20: the sheet names taken for a formula sheet. *)
Definition formula_like (name : string) : bool :=
  String.eqb (lower name) "formula_695_cases" || String.eqb (lower name) "formula".

(** Lines 18-25: the first formula-like sheet, else the first sheet. *)
Definition pick_formula (sheets_dict : workbook) : option (string * sheet) :=
  match List.find (fun ns => formula_like (fst ns)) sheets_dict with
  | Some ns => Some ns
  | None => hd_error sheets_dict
  end.

(** [c.lower().strip()] for one header; [None] when [c.lower()] raises. *)
Definition header_key (h : header) : option string :=
  match h with
  | HText name => Some (strip (lower name))
  | HOther => None
  end.

(** Lines 28 and 44: the comprehension calls [c.lower()] on every header
    of the sheet, so it is built only when all of them are text. *)
Definition text_headers (df : sheet) : bool :=
  forallb (fun c => match fst c with HText _ => true | HOther => false end) df.

Definition key_is (k : string) (c : header * list cell) : bool :=
  match header_key (fst c) with
  | Some k' => String.eqb k' k
  | None => false
  end.

(** [{c.lower().strip(): c for c in df.columns}] and its [get]: a later
    column replaces an earlier one under the same key, so the key stands
    for the last column that normalises to it. *)
Definition cols_get (df : sheet) (k : string) : option (header * list cell) :=
  List.find (key_is k) (rev df).

(** Lines 41-47: the first sheet named inventory decides, whether or not
    it has the two columns ([break]).  The outer [None] is the
    AttributeError of line 44. *)
Definition load_onhand (sheets_dict : workbook) : option (option sheet) :=
  match List.find (fun ns => String.eqb (lower (fst ns)) "inventory") sheets_dict with
  | Some (_, df) =>
      if text_headers df
      then match cols_get df "component", cols_get df "on_hand" with
           | Some c, Some o =>
               Some (Some [(HText "Component", snd c); (HText "On_Hand", snd o)])
           | _, _ => Some None
           end
      else None
  | None => Some None
  end.

Definition load_components_and_onhand (sheets_dict : workbook) : loaded :=
  match pick_formula sheets_dict with
  | None => IndexError
  | Some (pick, df_formula) =>
      if text_headers df_formula
      then
        let comp_col :=
          match cols_get df_formula "component" with
          | Some c => Some c
          | None => hd_error df_formula
          end in
        match comp_col with
        | None => IndexError
        | Some comp_col =>
            match cols_get df_formula "per_case" with
            | None => NoPerCase
            | Some per_case_col =>
                let uom :=
                  match cols_get df_formula "uom" with
                  | Some uom_col => snd uom_col
                  | None => List.map (fun _ => CText "") (snd comp_col)
                  end in
                match load_onhand sheets_dict with
                | Some onhand_df =>
                    Loaded [(HText "Component", snd comp_col);
                            (HText "Per_Case", snd per_case_col);
                            (HText "UOM", uom)]
                           onhand_df pick
                | None => AttributeError
                end
            end
        end
      else AttributeError
  end.

End Load.

(** The facts about [str.lower] and [str.strip] that matter for a workbook
    written by [make_snapshot]: how they act on the names it writes. *)
Definition python_str (lower strip : string -> string) : Prop :=
  strip (lower "Component") = "component"
  /\ strip (lower "UOM") = "uom"
  /\ strip (lower "On_Hand") = "on_hand"
  /\ strip (lower "Per_Case") = "per_case"
  /\ strip (lower "Required") = "required"
  /\ strip (lower "Remaining") = "remaining"
  /\ lower "INVENTORY" = "inventory".

(** The two methods on ASCII text. *)
Definition ascii_lower (s : string) : string := Spec.lowercase s.
Definition ascii_strip (s : string) : string := Spec.rstrip (Spec.lstrip s).

(** ** Typed rows of a loaded frame *)

(** The rows of [components] when every Component cell is text and the
    three columns have the same length. *)
Fixpoint formula_rows (comp per uom : list cell) : option (list Formula.row) :=
  match comp, per, uom with
  | [], [], [] => Some []
  | CText name :: comp', p :: per', u :: uom' =>
      match formula_rows comp' per' uom' with
      | Some rows => Some (Formula.mk name p u :: rows)
      | None => None
      end
  | _, _, _ => None
  end.

Definition components_rows (components : sheet) : option (list Formula.row) :=
  match components with
  | [(_, comp); (_, per); (_, uom)] => formula_rows comp per uom
  | _ => None
  end.

Fixpoint stock_rows (comp onhand : list cell) : option (list Stock.row) :=
  match comp, onhand with
  | [], [] => Some []
  | CText name :: comp', o :: onhand' =>
      match stock_rows comp' onhand' with
      | Some rows => Some (Stock.mk name o :: rows)
      | None => None
      end
  | _, _ => None
  end.

Definition onhand_rows (onhand_df : sheet) : option (list Stock.row) :=
  match onhand_df with
  | [(_, comp); (_, onhand)] => stock_rows comp onhand
  | _ => None
  end.

(** ** Lines 75-83: [make_snapshot] *)

(** Line 78, [display_df[["Component","UOM","Per_Case"]]]. *)
Definition snapshot_formula (display_df : list Row.row) : sheet :=
  [(HText "Component", List.map (fun r => CText (Row.Component r)) display_df);
   (HText "UOM", List.map Row.UOM display_df);
   (HText "Per_Case", List.map (fun r => CNum (Row.Per_Case r)) display_df)].

(** Line 80, [display_df.copy()]: the six columns in the order of line 72. *)
Definition snapshot_inventory (display_df : list Row.row) : sheet :=
  [(HText "Component", List.map (fun r => CText (Row.Component r)) display_df);
   (HText "UOM", List.map Row.UOM display_df);
   (HText "On_Hand", List.map (fun r => CNum (Row.On_Hand r)) display_df);
   (HText "Per_Case", List.map (fun r => CNum (Row.Per_Case r)) display_df);
   (HText "Required", List.map (fun r => CNum (Row.Required r)) display_df);
   (HText "Remaining", List.map (fun r => CNum (Row.Remaining r)) display_df)].

(** [formula_name or "FORMULA"]. *)
Definition snapshot_name (formula_name : option string) : string :=
  match formula_name with
  | Some (String c name) => String c name
  | Some EmptyString | None => "FORMULA"
  end.

(** The sheets [make_snapshot] hands to the Excel writer, in the order it
    writes them; the bytes of the file are the writer's. *)
Definition make_snapshot (formula_name : option string) (display_df : list Row.row)
  : workbook :=
  [(snapshot_name formula_name, snapshot_formula display_df);
   ("INVENTORY", snapshot_inventory display_df)].

(** ** Lines 104-127: the editing table of the page *)

(** Lines 104-106, [base]: the left join of the components with the
    uploaded on-hand table (an empty one when there is none), On_Hand made
    numeric. *)
Definition base (comps : list Formula.row) (onhand : option (list Stock.row))
  : list Merged.row :=
  List.map
    (fun m => Merged.mk (Merged.Component m) (Merged.Per_Case m) (Merged.UOM m)
                        (CNum (normalize (Merged.On_Hand m))))
    (merge comps (match onhand with Some rows => rows | None => [] end)).

(** Lines 108-119, what [st.data_editor] can return for [base]: the same
    rows with Component, UOM and Per_Case as they were (the three columns
    are disabled) and any On_Hand cells. *)
Definition edit_of (base edited : list Merged.row) : Prop :=
  Forall2 (fun b e => Merged.Component e = Merged.Component b
                      /\ Merged.Per_Case e = Merged.Per_Case b
                      /\ Merged.UOM e = Merged.UOM b)
          base edited.

(** Line 121, [edited[["Component","On_Hand"]]]. *)
Definition edited_onhand (edited : list Merged.row) : list Stock.row :=
  List.map (fun e => Stock.mk (Merged.Component e) (Merged.On_Hand e)) edited.

(** A row of a snapshot, read back: the component of the formula sheet
    joined with its row of the inventory sheet. *)
Definition snapshot_row (r : Row.row) : Merged.row :=
  Merged.mk (Row.Component r) (CNum (Row.Per_Case r)) (Row.UOM r)
            (CNum (Row.On_Hand r)).

(** A workbook in which the formula sheet is not the first sheet, and whose
    header cells are padded and in mixed case. *)
Definition sample_workbook : workbook :=
  [("INVENTORY", [(HText " Component", [CText "Cap"; CText "Bottle"]);
                  (HText "On_Hand ", [CNum 5; CNum 10])]);
   ("Formula", [(HText "Component", [CText "Bottle"; CText "Cap"]);
                (HText "per_case", [CNum 2; CNum 1]);
                (HText "Note", [CText "glass"; CMissing]);
                (HText "PER_CASE", [CNum 1; CNum 1])])].

(** ** Predicates used in the further statements *)

(** A stock row of a material the formula names. *)
Definition in_formula (F : list Formula.row) (s : Stock.row) : bool :=
  existsb (fun f => String.eqb (Stock.Component s) (Formula.Component f)) F.

(** Two rows of the editing table that differ at most in On_Hand. *)
Definition same_fixed (b e : Merged.row) : Prop :=
  Merged.Component e = Merged.Component b
  /\ Merged.Per_Case e = Merged.Per_Case b
  /\ Merged.UOM e = Merged.UOM b.

(** Rows of the editing table that come from the component [f]. *)
Definition rows_of (f : Formula.row) (rows : list Merged.row) : Prop :=
  rows <> [] /\ forall m, In m rows -> exists c, m = with_on_hand f c.

(** Line 106 on one row. *)
Definition numeric_on_hand (m : Merged.row) : Merged.row :=
  Merged.mk (Merged.Component m) (Merged.Per_Case m) (Merged.UOM m)
            (CNum (normalize (Merged.On_Hand m))).

(** * Properties *)

Local Open Scope string_scope.
Set Warnings "-inexact-float".

(** ** The scenarios of the specification, run *)

(** Scenario A: nothing short, five sellable cases. *)
Example scenario_A :
  compute_results Sample.formula (Some Sample.stock) 4%float
  = Some ([Row.mk "Bottle" (CText "ea") 10%float 1%float 4%float 6%float;
           Row.mk "Cap" (CText "ea") 5%float 1%float 4%float 1%float],
          5, []).
Proof. vm_compute. reflexivity. Qed.

(** Scenario B: no stock row for Cap. *)
Example scenario_B :
  compute_results Sample.formula (Some Sample.stock_no_cap) 3%float
  = Some ([Row.mk "Bottle" (CText "ea") 2%float 1%float 3%float (-1)%float;
           Row.mk "Cap" (CText "ea") 0%float 1%float 3%float (-3)%float],
          0,
          [Row.mk "Bottle" (CText "ea") 2%float 1%float 3%float (-1)%float;
           Row.mk "Cap" (CText "ea") 0%float 1%float 3%float (-3)%float]).
Proof. vm_compute. reflexivity. Qed.

(** Scenario C: a formula of the one material Label, which uses nothing. *)
Example scenario_C :
  compute_results [Sample.label] (Some Sample.stock) 4%float
  = Some ([Row.mk "Label" (CText "ea") 0%float 0%float 0%float 0%float], 0, []).
Proof. vm_compute. reflexivity. Qed.

(** An infinite On_Hand makes [math.floor] raise. *)
Example infinite_stock_raises :
  compute_results [Sample.cap] (Some [Stock.mk "Cap" (CNum infinity)]) 1%float
  = None.
Proof. vm_compute. reflexivity. Qed.

(** A column assignment changes the frame it is applied to. *)
Example set_on_hand_assigns_in_place :
  Store.set_on_hand 0 0%float [Store.FormulaFrame [Sample.cap]]
  = (Some tt, [Store.MergedFrame [with_on_hand Sample.cap (CNum 0%float)]]).
Proof. reflexivity. Qed.

(** ** Facts about binary64 comparisons *)

Section FloatFacts.

Local Open Scope float_scope.

Lemma Prim2SF_zero : Prim2SF 0 = S754_zero false.
Proof. reflexivity. Qed.

Lemma Prim2SF_infinity : Prim2SF infinity = S754_infinity false.
Proof. reflexivity. Qed.

Lemma is_nan_spec (x : float) :
  is_nan x = match Prim2SF x with S754_nan => true | _ => false end.
Proof.
  unfold is_nan. rewrite FloatAxioms.eqb_spec. unfold SFeqb.
  destruct (Prim2SF x) as [s | s | | s m e]; simpl; try reflexivity.
  - destruct s; reflexivity.
  - rewrite Z.compare_refl, Pos.compare_cont_refl. destruct s; reflexivity.
Qed.

Lemma infinity_ltb (a : float) : (infinity <? a) = false.
Proof.
  rewrite ltb_spec, Prim2SF_infinity. unfold SFltb.
  destruct (Prim2SF a) as [s | s | | s m e]; try reflexivity.
  destruct s; reflexivity.
Qed.

Lemma not_below_infinity (y : float) :
  is_nan y = false -> (y <? infinity) = false -> y = infinity.
Proof.
  rewrite is_nan_spec, ltb_spec, Prim2SF_infinity. unfold SFltb. intros Hnan Hlt.
  apply Prim2SF_inj. rewrite Prim2SF_infinity.
  destruct (Prim2SF y) as [s | s | | s m e]; try discriminate.
  destruct s; [discriminate | reflexivity].
Qed.

Lemma eqb_zero_not_positive (x : float) : (x =? 0) = true -> (0 <? x) = false.
Proof.
  rewrite FloatAxioms.eqb_spec, ltb_spec, Prim2SF_zero. unfold SFeqb, SFltb.
  destruct (Prim2SF x) as [s | s | | s m e]; simpl; try reflexivity; try discriminate.
  all: destruct s; discriminate.
Qed.

Lemma eqb_zero_not_negative (x : float) : (x =? 0) = true -> (x <? 0) = false.
Proof.
  rewrite FloatAxioms.eqb_spec, ltb_spec, Prim2SF_zero. unfold SFeqb, SFltb.
  destruct (Prim2SF x) as [s | s | | s m e]; simpl; try reflexivity; try discriminate.
  all: destruct s; discriminate.
Qed.

Lemma fillna_not_nan (x : float) : is_nan (fillna x 0) = false.
Proof. unfold fillna. destruct (is_nan x) eqn:E; [reflexivity | exact E]. Qed.

End FloatFacts.

(** ** The left join *)

Section Merge.

Implicit Types (f : Formula.row) (s : Stock.row) (m : Merged.row).
Implicit Types (F : list Formula.row) (S : list Stock.row).

Lemma in_matching f S s :
  In s (matching f S) <-> In s S /\ Stock.Component s = Formula.Component f.
Proof.
  unfold matching. rewrite filter_In, String.eqb_eq. reflexivity.
Qed.

Lemma matching_nil f S :
  matching f S = [] <->
  (forall s, In s S -> Stock.Component s <> Formula.Component f).
Proof.
  split.
  - intros E s Hs Hk.
    assert (H : In s (matching f S)) by (apply in_matching; auto).
    rewrite E in H. destruct H.
  - intros H. destruct (matching f S) as [| s ms] eqn:E; [reflexivity | exfalso].
    assert (Hs : In s (matching f S)) by (rewrite E; left; reflexivity).
    apply in_matching in Hs. destruct Hs as [Hs Hk]. exact (H s Hs Hk).
Qed.

(** Rows of the join that come from the left row [f]. *)
Lemma in_merge_row f S m :
  In m (merge_row S f) <->
  (exists s, In s S /\ Stock.Component s = Formula.Component f
             /\ m = with_on_hand f (Stock.On_Hand s))
  \/ ((forall s, In s S -> Stock.Component s <> Formula.Component f)
      /\ m = with_on_hand f CMissing).
Proof.
  unfold merge_row. destruct (matching f S) as [| s0 ms] eqn:E.
  - split.
    + intros [<- | []]. right. split; [apply matching_nil, E | reflexivity].
    + intros [(s & Hs & Hk & _) | [_ ->]]; [| left; reflexivity].
      exfalso. exact (proj1 (matching_nil f S) E s Hs Hk).
  - rewrite <- E, in_map_iff. split.
    + intros (s & <- & Hs). apply in_matching in Hs. left. exists s. tauto.
    + intros [(s & Hs & Hk & ->) | [Hno _]].
      * exists s. split; [reflexivity | apply in_matching; auto].
      * exfalso. apply (proj2 (matching_nil f S)) in Hno.
        rewrite Hno in E. discriminate.
Qed.

Lemma in_merge F S m :
  In m (merge F S) <->
  exists f, In f F /\
    ((exists s, In s S /\ Stock.Component s = Formula.Component f
                /\ m = with_on_hand f (Stock.On_Hand s))
     \/ ((forall s, In s S -> Stock.Component s <> Formula.Component f)
         /\ m = with_on_hand f CMissing)).
Proof.
  unfold merge. rewrite in_flat_map.
  split; intros (f & Hf & H); exists f; (split; [exact Hf |]);
    apply in_merge_row; exact H.
Qed.

Lemma merge_row_length f S :
  length (merge_row S f) = Nat.max 1 (length (matching f S)).
Proof.
  unfold merge_row. destruct (matching f S) as [| s ms]; [reflexivity |].
  rewrite length_map. simpl. reflexivity.
Qed.

(** The join never has fewer rows than the left frame. *)
Lemma merge_length_ge F S : (length F <= length (merge F S))%nat.
Proof.
  unfold merge. induction F as [| f F IH]; simpl; [lia |].
  rewrite length_app, merge_row_length. lia.
Qed.

Lemma matching_unique_key f S :
  List.NoDup (List.map Stock.Component S) -> (length (matching f S) <= 1)%nat.
Proof.
  unfold matching. induction S as [| s S IH]; simpl; intros Hnd; [lia |].
  inversion Hnd as [| k ks Hnotin Hnd' ]; subst.
  destruct (String.eqb_spec (Stock.Component s) (Formula.Component f)) as [Hk | Hk].
  - simpl. 
    assert (E : List.filter
              (fun s' => Stock.Component s' =? Formula.Component f) S = []).
    { apply (proj2 (matching_nil f S)). intros s' Hs' Hk'.
      apply Hnotin. rewrite Hk, <- Hk'. apply in_map. exact Hs'. }
    rewrite E. simpl. lia.
  - apply IH. exact Hnd'.
Qed.

Lemma merge_row_single f S :
  (length (matching f S) <= 1)%nat ->
  exists c, merge_row S f = [with_on_hand f c].
Proof.
  intros Hlen.
  unfold merge_row. destruct (matching f S) as [| s [| s' ms]]; simpl in *.
  - exists CMissing. reflexivity.
  - exists (Stock.On_Hand s). reflexivity.
  - lia.
Qed.

(** The join has as many rows as the left frame only if no left row has
    two matching right rows. *)
Lemma merge_length_exact F S :
  length (merge F S) = length F ->
  forall f, In f F -> (length (matching f S) <= 1)%nat.
Proof.
  unfold merge. induction F as [| f0 F IH]; simpl; intros Hlen f Hf; [destruct Hf |].
  rewrite length_app, merge_row_length in Hlen.
  pose proof (merge_length_ge F S) as Hge. unfold merge in Hge.
  destruct Hf as [<- | Hf]; [lia |].
  apply IH; [lia | exact Hf].
Qed.

Lemma merge_unmatched_row f S :
  (forall s, In s S -> Stock.Component s <> Formula.Component f) ->
  merge_row S f = [with_on_hand f CMissing].
Proof.
  intros H. apply (proj2 (matching_nil f S)) in H.
  unfold merge_row. rewrite H. reflexivity.
Qed.

Lemma filter_all {A} (p : A -> bool) (l : list A) :
  (forall x, In x l -> p x = true) -> List.filter p l = l.
Proof.
  induction l as [| x l IH]; simpl; intros H; [reflexivity |].
  rewrite (H x (or_introl eq_refl)), IH by (intros; apply H; auto). reflexivity.
Qed.

Lemma filter_none {A} (p : A -> bool) (l : list A) :
  (forall x, In x l -> p x = false) -> List.filter p l = [].
Proof.
  induction l as [| x l IH]; simpl; intros H; [reflexivity |].
  rewrite (H x (or_introl eq_refl)). apply IH. intros; apply H; auto.
Qed.

(** The join, entry by entry. *)
Lemma merge_concat F S : merge F S = concat (List.map (merge_row S) F).
Proof. unfold merge. apply flat_map_concat_map. Qed.

Lemma merge_row_groups f S :
  (matching f S = [] /\ merge_row S f = [with_on_hand f CMissing])
  \/ (matching f S <> []
      /\ merge_row S f
         = List.map (fun s => with_on_hand f (Stock.On_Hand s)) (matching f S)).
Proof.
  unfold merge_row. destruct (matching f S); [left | right]; split;
    try reflexivity; discriminate.
Qed.

Lemma merge_row_component f S m :
  In m (merge_row S f) -> Merged.Component m = Formula.Component f.
Proof.
  intros H. apply in_merge_row in H.
  destruct H as [(s & _ & _ & ->) | (_ & ->)]; reflexivity.
Qed.

(** A left row with several matching right rows has several rows in the
    join, which is then longer than the left frame. *)
Lemma merge_many_rows F S f :
  In f F -> (2 <= length (matching f S))%nat ->
  (2 <= length (List.filter
                  (fun m => String.eqb (Merged.Component m) (Formula.Component f))
                  (merge F S)))%nat
  /\ (length F < length (merge F S))%nat.
Proof.
  intros Hf Hmany. apply in_split in Hf. destruct Hf as (F1 & F2 & ->).
  pose proof (merge_length_ge F1 S) as H1. pose proof (merge_length_ge F2 S) as H2.
  unfold merge in *. rewrite flat_map_app. simpl. split.
  - rewrite !List.filter_app, !length_app.
    rewrite (filter_all _ (merge_row S f)).
    + rewrite merge_row_length. lia.
    + intros m Hm. apply String.eqb_eq. eapply merge_row_component. exact Hm.
  - rewrite !length_app. simpl. rewrite merge_row_length. lia.
Qed.

End Merge.

Lemma display_Permutation (df : list Row.row) : Permutation (display df) df.
Proof. apply merge_sort_Permutation. Qed.

(** C1 (as amended): the join has exactly one row per formula entry exactly
    when no material of the formula has more than one row in the stock
    table; the rows are then those of the formula, in formula order, each
    with its entry's material, per-case quantity and unit, whatever the
    size of the stock table, and the count carries over to the reconciled
    frame and to the display table.  In every case the join is, entry by
    entry and in formula order, one row per stock row of the entry's
    material (one row with an empty On_Hand when there is none), and the
    On_Hand of every stock row of the material is in the join.  An entry
    whose material has several stock rows therefore has several rows of
    its material in the join, which is then longer than the formula, and
    so is the display table. *)
Theorem merge_one_row_per_formula_entry
    (F : list Formula.row) (S : list Stock.row) (cases_sold : float) :
  ((forall f, In f F -> (length (matching f S) <= 1)%nat) <->
   length (merge F S) = length F)
  /\ ((forall f, In f F -> (length (matching f S) <= 1)%nat) ->
      Forall2 (fun f m => exists c, m = with_on_hand f c) F (merge F S)
      /\ length (reconcile F (Some S) cases_sold) = length F
      /\ length (display (reconcile F (Some S) cases_sold)) = length F)
  /\ (exists groups,
        merge F S = concat groups
        /\ Forall2 (fun f rows =>
                      (matching f S = [] /\ rows = [with_on_hand f CMissing])
                      \/ (matching f S <> []
                          /\ rows = List.map (fun s => with_on_hand f (Stock.On_Hand s))
                                             (matching f S)))
                   F groups)
  /\ (forall f s, In f F -> In s S -> Stock.Component s = Formula.Component f ->
                  In (with_on_hand f (Stock.On_Hand s)) (merge F S))
  /\ (forall f, In f F -> (2 <= length (matching f S))%nat ->
        (2 <= length (List.filter
                        (fun m => String.eqb (Merged.Component m) (Formula.Component f))
                        (merge F S)))%nat
        /\ (length F < length (merge F S))%nat
        /\ (length F < length (reconcile F (Some S) cases_sold))%nat
        /\ (length F < length (display (reconcile F (Some S) cases_sold)))%nat).
Proof.
  assert (Hrec : length (reconcile F (Some S) cases_sold) = length (merge F S)).
  { unfold reconcile. simpl. apply length_map. }
  assert (Hdis : length (display (reconcile F (Some S) cases_sold))
                 = length (merge F S)).
  { rewrite (Permutation_length (display_Permutation _)). exact Hrec. }
  assert (H2 : (forall f, In f F -> (length (matching f S) <= 1)%nat) ->
               Forall2 (fun f m => exists c, m = with_on_hand f c) F (merge F S)).
  { clear Hrec Hdis. intros Hone. unfold merge.
    induction F as [| f F IH]; simpl; [constructor |].
    destruct (merge_row_single f S (Hone f (or_introl eq_refl))) as [c ->].
    simpl. constructor; [exists c; reflexivity |].
    apply IH. intros f' Hf'. apply Hone. right. exact Hf'. }
  split; [| split; [| split; [| split]]].
  - split; [| apply merge_length_exact].
    intros Hone. symmetry. eapply Forall2_length. exact (H2 Hone).
  - intros Hone. pose proof (H2 Hone) as HF.
    assert (Hlen : length (merge F S) = length F)
      by (symmetry; eapply Forall2_length; exact HF).
    split; [exact HF |]. split; congruence.
  - exists (List.map (merge_row S) F). split; [apply merge_concat |].
    clear. induction F as [| f F IH]; simpl; constructor; [apply merge_row_groups | exact IH].
  - intros f s Hf Hs Hk. apply in_merge. exists f. split; [exact Hf |].
    left. exists s. auto.
  - intros f Hf Hmany. destruct (merge_many_rows F S f Hf Hmany) as [Hcount Hlen].
    split; [exact Hcount |]. split; [exact Hlen |]. split; lia.
Qed.

Lemma merge_one_row_per_formula_entry_witness :
  (Forall2 (fun f m => exists c, m = with_on_hand f c)
           Sample.formula (merge Sample.formula Sample.stock)
   /\ length (reconcile Sample.formula (Some Sample.stock) 4%float)
      = length Sample.formula
   /\ length (display (reconcile Sample.formula (Some Sample.stock) 4%float))
      = length Sample.formula)
  /\ ((2 <= length (List.filter
                      (fun m => String.eqb (Merged.Component m)
                                           (Formula.Component Sample.cap))
                      (merge [Sample.cap] Sample.stock_cap_twice)))%nat
      /\ (length [Sample.cap] < length (merge [Sample.cap] Sample.stock_cap_twice))%nat
      /\ (length [Sample.cap]
          < length (reconcile [Sample.cap] (Some Sample.stock_cap_twice) 1%float))%nat
      /\ (length [Sample.cap]
          < length (display
                      (reconcile [Sample.cap] (Some Sample.stock_cap_twice) 1%float)))%nat).
Proof.
  split.
  - apply (proj1 (proj2
             (merge_one_row_per_formula_entry Sample.formula Sample.stock 4%float))).
    intros f [<- | [<- | []]]; vm_compute; lia.
  - apply (proj2 (proj2 (proj2 (proj2
             (merge_one_row_per_formula_entry [Sample.cap] Sample.stock_cap_twice
                1%float))))
             Sample.cap).
    + left. reflexivity.
    + vm_compute. lia.
Defined.

(** C1, as stated, fails: with Cap twice in the stock table the join
    gives two Cap rows for the one formula entry, one per stock row, and
    both reach the returned display table. *)
Lemma merge_duplicate_stock_two_rows :
  merge [Sample.cap] Sample.stock_cap_twice
  = [with_on_hand Sample.cap (CNum 5); with_on_hand Sample.cap (CNum 7)]
  /\ length [Sample.cap] = 1%nat
  /\ option_map (fun res => List.map Row.On_Hand (fst (fst res)))
       (compute_results [Sample.cap] (Some Sample.stock_cap_twice) 1%float)
     = Some [5%float; 7%float].
Proof. repeat split; vm_compute; reflexivity. Qed.

(** C6: a formula entry with no stock row of its material, or with no
    stock table at all, keeps its row in the reconciled frame and in the
    display table, and every row of that material has On_Hand 0.0. *)
Theorem unmatched_material_zero_on_hand
    (F : list Formula.row) (onhand_df : option (list Stock.row))
    (cases_sold : float) (f : Formula.row) :
  In f F ->
  (forall S s, onhand_df = Some S -> In s S ->
               Stock.Component s <> Formula.Component f) ->
  let per_case := normalize (Formula.Per_Case f) in
  let row := Row.mk (Formula.Component f) (Formula.UOM f) 0%float per_case
                    (per_case * cases_sold)%float
                    (0 - per_case * cases_sold)%float in
  In row (reconcile F onhand_df cases_sold)
  /\ In row (display (reconcile F onhand_df cases_sold))
  /\ forall r, In r (reconcile F onhand_df cases_sold) ->
               Row.Component r = Formula.Component f ->
               Row.On_Hand r = 0%float.
Proof.
  intros Hf Hno per_case row.
  assert (Hin : In row (reconcile F onhand_df cases_sold)).
  { unfold reconcile, attach_on_hand. destruct onhand_df as [S |].
    - apply in_map_iff. exists (with_on_hand f CMissing). split; [reflexivity |].
      apply in_merge. exists f. split; [exact Hf | right].
      split; [| reflexivity]. intros s Hs. exact (Hno S s eq_refl Hs).
    - apply in_map_iff. exists (with_on_hand f (CNum 0%float)).
      split; [reflexivity |].
      apply (in_map (fun f0 => with_on_hand f0 (CNum 0%float))). exact Hf. }
  split; [exact Hin | split].
  - eapply Permutation_in; [| exact Hin].
    symmetry. apply display_Permutation.
  - intros r Hr Hk. unfold reconcile, attach_on_hand in Hr.
    apply in_map_iff in Hr. destruct Hr as (m & <- & Hm).
    destruct onhand_df as [S |].
    + apply in_merge in Hm.
      destruct Hm as (f' & _ & [(s & Hs & Hs' & ->) | (_ & ->)]); [| reflexivity].
      exfalso. apply (Hno S s eq_refl Hs). simpl in Hk. congruence.
    + apply in_map_iff in Hm. destruct Hm as (f' & <- & _). reflexivity.
Qed.

Lemma unmatched_material_zero_on_hand_witness :
  In (Row.mk "Cap" (CText "ea") 0%float 1%float 3%float (-3)%float)
     (reconcile Sample.formula (Some Sample.stock_no_cap) 3%float)
  /\ In (Row.mk "Cap" (CText "ea") 0%float 1%float 3%float (-3)%float)
        (display (reconcile Sample.formula (Some Sample.stock_no_cap) 3%float))
  /\ forall r, In r (reconcile Sample.formula (Some Sample.stock_no_cap) 3%float) ->
               Row.Component r = "Cap" -> Row.On_Hand r = 0%float.
Proof.
  apply (unmatched_material_zero_on_hand
           Sample.formula (Some Sample.stock_no_cap) 3%float Sample.cap).
  - right. left. reflexivity.
  - intros S s E Hs. injection E as <-. simpl in Hs.
    destruct Hs as [<- | []]. discriminate.
Defined.

(** C7 (as amended): the join matches a formula entry with a stock entry
    exactly when their Component strings are equal as they stand; the rows
    of the join are the formula entries paired with the On_Hand of each
    stock row of the same Component, or with an empty On_Hand when no stock
    row has that Component. *)
Theorem merge_matches_equal_components
    (F : list Formula.row) (S : list Stock.row) (f : Formula.row)
    (s : Stock.row) (m : Merged.row) :
  (In s (matching f S) <-> In s S /\ Stock.Component s = Formula.Component f)
  /\ (In m (merge F S) <->
      exists f', In f' F /\
        ((exists s', In s' S /\ Stock.Component s' = Formula.Component f'
                     /\ m = with_on_hand f' (Stock.On_Hand s'))
         \/ ((forall s', In s' S -> Stock.Component s' <> Formula.Component f')
             /\ m = with_on_hand f' CMissing))).
Proof. split; [apply in_matching | apply in_merge]. Qed.

(** C7, as stated, fails: "Cap" and " cap " are the same material once
    lowercased and trimmed, yet the join does not match them and the Cap
    row gets an empty On_Hand, 0.0 in the result. *)
Lemma merge_ignores_normalized_identity :
  Spec.normalized_identity "Cap" = Spec.normalized_identity " cap "
  /\ matching Sample.cap Sample.stock_cap_lower = []
  /\ merge [Sample.cap] Sample.stock_cap_lower = [with_on_hand Sample.cap CMissing]
  /\ List.map Row.On_Hand (reconcile [Sample.cap] (Some Sample.stock_cap_lower) 1%float)
     = [0%float].
Proof. repeat split; vm_compute; reflexivity. Qed.

(** ** Numeric coercion and the derived columns *)

(** C3 (as amended): the coercion of a cell is a total function whose
    result is never NaN: text that is not a number, an empty cell and NaN
    give 0.0, and every other number is kept as it is, a negative number
    and an infinity included. *)
Theorem normalize_replaces_only_nan (c : cell) :
  is_nan (normalize c) = false
  /\ normalize CMissing = 0%float
  /\ (forall s, normalize (CText s) = 0%float)
  /\ (forall x, normalize (CNum x) = if is_nan x then 0%float else x).
Proof.
  split; [apply fillna_not_nan |].
  split; [reflexivity |]. split; [reflexivity |]. reflexivity.
Qed.

(** C3, as stated, fails: a negative number and the two infinities come
    out of the coercion unchanged, so the result need be neither
    non-negative nor finite. *)
Lemma normalize_keeps_negative_and_infinite :
  normalize (CNum (-1)%float) = (-1)%float
  /\ (normalize (CNum (-1)%float) <? 0)%float = true
  /\ normalize (CNum infinity) = infinity
  /\ normalize (CNum neg_infinity) = neg_infinity
  /\ is_finite (normalize (CNum infinity)) = false
  /\ List.map Row.Per_Case
       (reconcile [Formula.mk "Cap" (CNum (-1)%float) (CText "ea")] None 1%float)
     = [(-1)%float].
Proof. repeat split; vm_compute; reflexivity. Qed.

Lemma derive_metrics_hold (cases_sold : float) (m : Merged.row) :
  metrics_hold cases_sold (derive cases_sold m).
Proof. split; reflexivity. Qed.

Lemma reconcile_metrics_hold components onhand_df cases_sold :
  Forall (metrics_hold cases_sold) (reconcile components onhand_df cases_sold).
Proof.
  unfold reconcile. apply List.Forall_forall. intros r Hr.
  apply in_map_iff in Hr. destruct Hr as (m & <- & _). apply derive_metrics_hold.
Qed.

Lemma derived_from_derive (cases_sold : float) (m : Merged.row) (r : Row.row) :
  derived_from cases_sold m r <-> r = derive cases_sold m.
Proof.
  unfold derived_from, derive. split.
  - destruct r as [c u o p rq rm]. simpl.
    intros (-> & -> & -> & -> & -> & ->). reflexivity.
  - intros ->. simpl. repeat split.
Qed.

Lemma in_reconcile components onhand_df cases_sold (r : Row.row) :
  In r (reconcile components onhand_df cases_sold) <->
  exists m, In m (attach_on_hand components onhand_df) /\ derived_from cases_sold m r.
Proof.
  unfold reconcile. rewrite in_map_iff. split.
  - intros (m & <- & Hm). exists m. split; [exact Hm |].
    apply derived_from_derive. reflexivity.
  - intros (m & Hm & Hd). exists m. split; [| exact Hm].
    symmetry. apply derived_from_derive. exact Hd.
Qed.

Lemma in_attach_on_hand components onhand_df (m : Merged.row) :
  In m (attach_on_hand components onhand_df) <->
  exists f c, In f components /\ stock_cell onhand_df f c /\ m = with_on_hand f c.
Proof.
  unfold attach_on_hand, stock_cell. destruct onhand_df as [S |].
  - rewrite in_merge. split.
    + intros (f & Hf & [(s & Hs & Hk & ->) | (Hno & ->)]).
      * exists f, (Stock.On_Hand s). split; [exact Hf |]. split; [| reflexivity].
        left. exists s. auto.
      * exists f, CMissing. split; [exact Hf |]. split; [| reflexivity].
        right. auto.
    + intros (f & c & Hf & [(s & Hs & Hk & ->) | (Hno & ->)] & ->);
        exists f; (split; [exact Hf |]).
      * left. exists s. auto.
      * right. auto.
  - rewrite in_map_iff. split.
    + intros (f & <- & Hf). exists f, (CNum 0%float). auto.
    + intros (f & c & Hf & -> & ->). exists f. auto.
Qed.

(** C2: for every order quantity, the i-th row of the reconciled frame comes
    from the i-th merged row: it has that row's Component and UOM, its
    Per_Case and On_Hand made numeric, Required = Per_Case * cases_sold and
    Remaining = On_Hand - Required, computed from the merged row's two
    quantities.  The rows of the display table are exactly the rows so
    derived from the merged rows, and every row of the shortage table is
    one of them.  In terms of the two arguments: the rows of the reconciled
    frame are exactly the rows derived from a formula entry and the On_Hand
    cell the join gives it.  The reconciled frame and the display table
    have one row per merged row. *)
Theorem derived_metrics
    (components : list Formula.row) (onhand_df : option (list Stock.row))
    (cases_sold : float) :
  Forall2 (derived_from cases_sold)
          (attach_on_hand components onhand_df)
          (reconcile components onhand_df cases_sold)
  /\ (forall r, In r (display (reconcile components onhand_df cases_sold)) <->
                exists m, In m (attach_on_hand components onhand_df)
                          /\ derived_from cases_sold m r)
  /\ (forall r, In r (shortages (reconcile components onhand_df cases_sold)) ->
                exists m, In m (attach_on_hand components onhand_df)
                          /\ derived_from cases_sold m r)
  /\ (forall r, In r (reconcile components onhand_df cases_sold) <->
                exists f c, In f components /\ stock_cell onhand_df f c
                  /\ Row.Component r = Formula.Component f
                  /\ Row.UOM r = Formula.UOM f
                  /\ Row.Per_Case r = normalize (Formula.Per_Case f)
                  /\ Row.On_Hand r = normalize c
                  /\ Row.Required r = (normalize (Formula.Per_Case f) * cases_sold)%float
                  /\ Row.Remaining r
                     = (normalize c - normalize (Formula.Per_Case f) * cases_sold)%float)
  /\ Forall (metrics_hold cases_sold) (reconcile components onhand_df cases_sold)
  /\ Forall (metrics_hold cases_sold)
            (display (reconcile components onhand_df cases_sold))
  /\ Forall (metrics_hold cases_sold)
            (shortages (reconcile components onhand_df cases_sold))
  /\ length (reconcile components onhand_df cases_sold)
     = length (attach_on_hand components onhand_df)
  /\ length (display (reconcile components onhand_df cases_sold))
     = length (attach_on_hand components onhand_df).
Proof.
  pose proof (reconcile_metrics_hold components onhand_df cases_sold) as H.
  split; [| split; [| split; [| split; [| split; [exact H | split; [| split; [| split]]]]]]].
  - unfold reconcile. induction (attach_on_hand components onhand_df);
      simpl; constructor; [apply derived_from_derive; reflexivity | assumption].
  - intros r. rewrite <- in_reconcile. split; intros Hr.
    + eapply Permutation_in; [apply display_Permutation | exact Hr].
    + eapply Permutation_in; [symmetry; apply display_Permutation | exact Hr].
  - intros r Hr. apply in_reconcile. unfold shortages in Hr.
    apply filter_In in Hr. tauto.
  - intros r. rewrite in_reconcile. split.
    + intros (m & Hm & Hd). apply in_attach_on_hand in Hm.
      destruct Hm as (f & c & Hf & Hc & ->). exists f, c.
      split; [exact Hf |]. split; [exact Hc |]. exact Hd.
    + intros (f & c & Hf & Hc & Hd). exists (with_on_hand f c).
      split; [| exact Hd]. apply in_attach_on_hand. exists f, c. auto.
  - rewrite List.Forall_forall in *. intros r Hr. apply H.
    eapply Permutation_in; [apply display_Permutation | exact Hr].
  - rewrite List.Forall_forall in *. intros r Hr. apply H.
    unfold shortages in Hr. apply filter_In in Hr. tauto.
  - unfold reconcile. apply length_map.
  - rewrite (Permutation_length (display_Permutation _)).
    unfold reconcile. apply length_map.
Qed.

(** ** The shortage table *)

(** C8: the shortage table holds exactly the rows of the frame with
    Remaining < 0, in frame order; a row whose Remaining is zero is not in
    it, and a row of the frame whose Remaining is -0.0001 is. *)
Theorem shortages_exact_boundary (df : list Row.row) (r : Row.row) :
  shortages df = List.filter (fun r' => (Row.Remaining r' <? 0)%float) df
  /\ (In r (shortages df) <-> In r df /\ (Row.Remaining r <? 0)%float = true)
  /\ ((Row.Remaining r =? 0)%float = true -> ~ In r (shortages df))
  /\ (In r df -> Row.Remaining r = (-0.0001)%float -> In r (shortages df)).
Proof.
  split; [reflexivity |]. split; [apply filter_In |]. split.
  - intros Hz Hin. apply filter_In in Hin. destruct Hin as [_ Hlt].
    rewrite (eqb_zero_not_negative _ Hz) in Hlt. discriminate.
  - intros Hin Hrem. apply filter_In. split; [exact Hin |].
    rewrite Hrem. reflexivity.
Qed.

Lemma shortages_exact_boundary_witness :
  ~ In (Row.mk "Cap" (CText "ea") 4%float 1%float 4%float 0%float)
       (shortages [Row.mk "Cap" (CText "ea") 4%float 1%float 4%float 0%float])
  /\ In (Row.mk "Cap" (CText "ea") 0%float 0.0001%float 0.0001%float (-0.0001)%float)
        (shortages
           [Row.mk "Cap" (CText "ea") 0%float 0.0001%float 0.0001%float (-0.0001)%float]).
Proof.
  split.
  - apply (shortages_exact_boundary
             [Row.mk "Cap" (CText "ea") 4%float 1%float 4%float 0%float]).
    reflexivity.
  - apply (shortages_exact_boundary
             [Row.mk "Cap" (CText "ea") 0%float 0.0001%float 0.0001%float (-0.0001)%float]).
    + left. reflexivity.
    + reflexivity.
Defined.

(** ** The number of sellable cases *)

Section Feasibility.

Local Open Scope float_scope.

Lemma fmin_infinity_r (a : float) : fmin a infinity = a.
Proof. unfold fmin. rewrite infinity_ltb. reflexivity. Qed.

Lemma fmin_infinity_l (y : float) : is_nan y = false -> fmin infinity y = y.
Proof.
  intros Hy. unfold fmin. destruct (y <? infinity) eqn:E; [reflexivity |].
  symmetry. apply not_below_infinity; assumption.
Qed.

Lemma filter_head_true {A} (p : A -> bool) (xs : list A) (y : A) (ys : list A) :
  List.filter p xs = y :: ys -> p y = true.
Proof.
  intros E. assert (H : In y (List.filter p xs)) by (rewrite E; left; reflexivity).
  apply filter_In in H. tauto.
Qed.

(** An entry [inf] of the column changes the minimum only when nothing
    else is left, and then [math.floor] raises with it and without it. *)
Lemma floor_min_drop_infinity (xs1 xs2 : list float) :
  math_floor (series_min (xs1 ++ infinity :: xs2))
  = math_floor (series_min (xs1 ++ xs2)).
Proof.
  unfold series_min. rewrite !List.filter_app. simpl.
  destruct (List.filter (fun x => negb (is_nan x)) xs1) as [| x l1]; simpl.
  - destruct (List.filter (fun x => negb (is_nan x)) xs2) as [| y l2] eqn:E;
      simpl; [reflexivity |].
    apply filter_head_true in E. apply negb_true_iff in E.
    rewrite (fmin_infinity_l y E). reflexivity.
  - rewrite !List.fold_left_app. simpl. rewrite fmin_infinity_r. reflexivity.
Qed.

Lemma not_candidate_infinity (r : Row.row) :
  is_candidate r = false -> MaxCasesByItem r = infinity.
Proof. unfold is_candidate, MaxCasesByItem. intros ->. reflexivity. Qed.

Lemma candidate_ratio (r : Row.row) :
  is_candidate r = true -> MaxCasesByItem r = Spec.ratio r.
Proof. unfold is_candidate, MaxCasesByItem. intros ->. reflexivity. Qed.

Lemma zero_per_case_not_candidate (r : Row.row) :
  (Row.Per_Case r =? 0) = true -> is_candidate r = false.
Proof. apply eqb_zero_not_positive. Qed.

(** A row that is not a candidate can be taken out of the frame. *)
Lemma max_sellable_drop_row (df1 df2 : list Row.row) (r : Row.row) :
  is_candidate r = false ->
  max_sellable (df1 ++ r :: df2) = max_sellable (df1 ++ df2).
Proof.
  intros Hr. unfold max_sellable, candidates.
  rewrite !List.filter_app. simpl. rewrite Hr.
  rewrite !List.map_app. simpl. rewrite (not_candidate_infinity r Hr).
  rewrite floor_min_drop_infinity. reflexivity.
Qed.

Lemma floor_min_candidates (pre : list float) (df : list Row.row) :
  math_floor (series_min (pre ++ List.map MaxCasesByItem df))
  = math_floor (series_min (pre ++ List.map Spec.ratio (List.filter is_candidate df))).
Proof.
  revert pre. induction df as [| r df IH]; intros pre; simpl; [reflexivity |].
  destruct (is_candidate r) eqn:Hr; simpl.
  - rewrite (candidate_ratio r Hr).
    specialize (IH (pre ++ [Spec.ratio r])%list).
    rewrite <- !List.app_assoc in IH. exact IH.
  - rewrite (not_candidate_infinity r Hr), floor_min_drop_infinity. apply IH.
Qed.

Lemma max_sellable_is_floor_of_least_ratio (df : list Row.row) :
  max_sellable df = Spec.maxFulfillable df.
Proof.
  unfold max_sellable, Spec.maxFulfillable, candidates.
  pose proof (floor_min_candidates [] df) as H. simpl in H.
  destruct (List.filter is_candidate df); [reflexivity | exact H].
Qed.

Lemma max_sellable_no_candidate (df : list Row.row) :
  (forall r, In r df -> (0 <? Row.Per_Case r) = false) -> max_sellable df = Some 0%Z.
Proof.
  intros H. unfold max_sellable, candidates.
  destruct (List.filter is_candidate df) as [| r rest] eqn:E; [reflexivity |].
  assert (Hr : In r (List.filter is_candidate df)) by (rewrite E; left; reflexivity).
  apply filter_In in Hr. destruct Hr as [Hr Hc].
  unfold is_candidate in Hc. rewrite (H r Hr) in Hc. discriminate.
Qed.

End Feasibility.

(** C4: a row whose Per_Case is zero can be removed from the frame without
    changing the number of sellable cases, whatever its On_Hand (and
    [math.floor] raises with the row exactly when it raises without it);
    and when no row has Per_Case > 0, [compute_results] returns 0 sellable
    cases. *)
Theorem zero_per_case_never_constrains :
  (forall (df1 df2 : list Row.row) (r : Row.row),
      (Row.Per_Case r =? 0)%float = true ->
      max_sellable (df1 ++ r :: df2) = max_sellable (df1 ++ df2))
  /\ (forall components onhand_df cases_sold,
         (forall r, In r (reconcile components onhand_df cases_sold) ->
                    (0 <? Row.Per_Case r)%float = false) ->
         compute_results components onhand_df cases_sold
         = Some (display (reconcile components onhand_df cases_sold), 0,
                 shortages (reconcile components onhand_df cases_sold))).
Proof.
  split.
  - intros df1 df2 r Hz. apply max_sellable_drop_row.
    apply zero_per_case_not_candidate. exact Hz.
  - intros components onhand_df cases_sold H. unfold compute_results.
    rewrite (max_sellable_no_candidate _ H). reflexivity.
Qed.

Lemma zero_per_case_never_constrains_witness :
  max_sellable ([Row.mk "Cap" (CText "ea") 5%float 1%float 4%float 1%float]
                ++ Row.mk "Label" (CText "ea") 0%float 0%float 0%float 0%float
                :: [Row.mk "Bottle" (CText "ea") 10%float 1%float 4%float 6%float])
  = max_sellable ([Row.mk "Cap" (CText "ea") 5%float 1%float 4%float 1%float]
                  ++ [Row.mk "Bottle" (CText "ea") 10%float 1%float 4%float 6%float])
  /\ compute_results [Sample.label] None 4%float
     = Some (display (reconcile [Sample.label] None 4%float), 0,
             shortages (reconcile [Sample.label] None 4%float)).
Proof.
  split.
  - apply (proj1 zero_per_case_never_constrains). reflexivity.
  - apply (proj2 zero_per_case_never_constrains).
    intros r [<- | []]. reflexivity.
Defined.

(** C5 (as amended): the feasibility part of what [compute_results]
    returns is one integer, the floor of the least On_Hand / Per_Case among
    the rows with Per_Case > 0, or 0 when there is no such row; the call
    raises exactly when that floor is undefined (the least ratio is
    infinite or no ratio is a number). *)
Theorem max_sellable_matches_spec
    (components : list Formula.row) (onhand_df : option (list Stock.row))
    (cases_sold : float) :
  option_map (fun res => snd (fst res))
             (compute_results components onhand_df cases_sold)
  = Spec.maxFulfillable (reconcile components onhand_df cases_sold).
Proof.
  unfold compute_results.
  rewrite <- max_sellable_is_floor_of_least_ratio.
  destruct (max_sellable (reconcile components onhand_df cases_sold));
    reflexivity.
Qed.

(** C5, as stated, fails: the returned triple is the display table, an
    integer and the shortage table.  On Scenario A the integer is 5 and Cap
    is the material with the least ratio; with the two stock levels
    exchanged the integer is again 5 and the material is Bottle. *)
Lemma compute_results_names_no_constraining_material :
  compute_results Sample.formula (Some Sample.stock) 4%float
  = Some ([Row.mk "Bottle" (CText "ea") 10%float 1%float 4%float 6%float;
           Row.mk "Cap" (CText "ea") 5%float 1%float 4%float 1%float],
          5, [])
  /\ option_map (fun res => snd (fst res))
       (compute_results Sample.formula (Some Sample.stock_swapped) 4%float)
     = Some 5
  /\ Spec.constrainingMaterial (reconcile Sample.formula (Some Sample.stock) 4%float)
     = Some "Cap"
  /\ Spec.constrainingMaterial
       (reconcile Sample.formula (Some Sample.stock_swapped) 4%float)
     = Some "Bottle".
Proof. repeat split; vm_compute; reflexivity. Qed.

(** ** The display table *)

Section Display.

Lemma string_leb_trans (a b c : string) :
  String.leb a b = true -> String.leb b c = true -> String.leb a c = true.
Proof.
  unfold String.leb. revert b c.
  induction a as [| x a IH]; intros [| y b] [| z c]; simpl; try easy.
  unfold Ascii.compare.
  destruct (N.compare_spec (N_of_ascii x) (N_of_ascii y)) as [Exy | Lxy | Gxy];
    destruct (N.compare_spec (N_of_ascii y) (N_of_ascii z)) as [Eyz | Lyz | Gyz];
    destruct (N.compare_spec (N_of_ascii x) (N_of_ascii z)) as [Exz | Lxz | Gxz];
    try lia; try easy.
  apply IH.
Qed.

#[local] Instance component_le_total : Total component_le.
Proof. intros r1 r2. apply String.leb_total. Qed.

#[local] Instance component_le_trans : Transitive component_le.
Proof. intros r1 r2 r3. apply string_leb_trans. Qed.

#[local] Instance string_le_antisym : AntiSymm eq string_le.
Proof. intros a b. apply String.leb_antisym. Qed.

Lemma display_StronglySorted (df : list Row.row) :
  StronglySorted component_le (display df).
Proof. apply StronglySorted_merge_sort; typeclasses eauto. Qed.

Lemma display_components_sorted (df : list Row.row) :
  StronglySorted string_le (List.map Row.Component (display df)).
Proof.
  apply (StronglySorted_fmap Row.Component component_le string_le).
  - intros r1 r2 H. exact H.
  - apply display_StronglySorted.
Qed.

(** The keys of the display table depend on the rows, not on their order. *)
Lemma display_components_Permutation (df df' : list Row.row) :
  Permutation df df' ->
  List.map Row.Component (display df) = List.map Row.Component (display df').
Proof.
  intros Hp. apply (StronglySorted_unique string_le);
    try apply display_components_sorted.
  apply Permutation_map.
  rewrite !display_Permutation. exact Hp.
Qed.

Lemma filter_Permutation_list {A} (p : A -> bool) (l l' : list A) :
  Permutation l l' -> Permutation (List.filter p l) (List.filter p l').
Proof.
  induction 1 as [| x l l' _ IH | x y l | l l' l'' _ IH1 _ IH2]; simpl.
  - constructor.
  - destruct (p x); [constructor |]; exact IH.
  - destruct (p x), (p y); try reflexivity. constructor.
  - etransitivity; eassumption.
Qed.

Lemma merge_row_Permutation (S S' : list Stock.row) (f : Formula.row) :
  Permutation S S' -> Permutation (merge_row S f) (merge_row S' f).
Proof.
  intros Hp. unfold merge_row.
  pose proof (filter_Permutation_list
                (fun s => Stock.Component s =? Formula.Component f) S S' Hp) as Hm.
  fold (matching f S) in Hm. fold (matching f S') in Hm.
  destruct (matching f S) as [| s ms] eqn:E.
  - apply Permutation_nil in Hm. rewrite Hm. reflexivity.
  - destruct (matching f S') as [| s' ms'] eqn:E'.
    + symmetry in Hm. apply Permutation_nil in Hm. discriminate.
    + apply Permutation_map. exact Hm.
Qed.

Lemma merge_Permutation (F F' : list Formula.row) (S S' : list Stock.row) :
  Permutation F F' -> Permutation S S' ->
  Permutation (merge F S) (merge F' S').
Proof.
  intros HF HS. unfold merge.
  transitivity (List.flat_map (merge_row S) F').
  - apply Permutation_flat_map. exact HF.
  - clear HF. induction F' as [| f F' IH]; simpl; [reflexivity |].
    apply Permutation_app; [apply merge_row_Permutation; exact HS | exact IH].
Qed.

Lemma reconcile_Permutation F F' onhand_df onhand_df' cases_sold :
  Permutation F F' -> same_stock onhand_df onhand_df' ->
  Permutation (reconcile F onhand_df cases_sold)
              (reconcile F' onhand_df' cases_sold).
Proof.
  intros HF HS. unfold reconcile. apply Permutation_map.
  destruct onhand_df as [S |], onhand_df' as [S' |]; simpl in *; try contradiction.
  - apply merge_Permutation; assumption.
  - apply Permutation_map. exact HF.
Qed.

End Display.

(** C9 (as amended): the display table holds the rows of the reconciled
    frame ordered by Component, ascending in the code-point order of the
    strings as they stand (capitals before small letters); the sequence of
    its Component values is the same for every row order of the formula
    and stock tables. *)
Theorem display_sorted_by_component
    (F F' : list Formula.row) (onhand_df onhand_df' : option (list Stock.row))
    (cases_sold : float) :
  Permutation F F' -> same_stock onhand_df onhand_df' ->
  StronglySorted component_le (display (reconcile F onhand_df cases_sold))
  /\ Permutation (display (reconcile F onhand_df cases_sold))
                 (reconcile F onhand_df cases_sold)
  /\ List.map Row.Component (display (reconcile F onhand_df cases_sold))
     = List.map Row.Component (display (reconcile F' onhand_df' cases_sold)).
Proof.
  intros HF HS. split; [apply display_StronglySorted |].
  split; [apply display_Permutation |].
  apply display_components_Permutation, reconcile_Permutation; assumption.
Qed.

Lemma display_sorted_by_component_witness :
  StronglySorted component_le
    (display (reconcile Sample.formula (Some Sample.stock) 4%float))
  /\ Permutation (display (reconcile Sample.formula (Some Sample.stock) 4%float))
                 (reconcile Sample.formula (Some Sample.stock) 4%float)
  /\ List.map Row.Component
       (display (reconcile Sample.formula (Some Sample.stock) 4%float))
     = List.map Row.Component
         (display (reconcile (rev Sample.formula) (Some (rev Sample.stock)) 4%float)).
Proof.
  apply (display_sorted_by_component
           Sample.formula (rev Sample.formula)
           (Some Sample.stock) (Some (rev Sample.stock)) 4%float).
  - apply Permutation_rev.
  - simpl. apply perm_swap.
Defined.

(** C9, as stated, fails: "Zinc" is displayed before "apple", which is
    not ascending once case is ignored. *)
Lemma display_order_is_case_sensitive :
  option_map (fun res => List.map Row.Component (fst (fst res)))
             (compute_results Sample.mixed_case None 1%float)
  = Some ["Zinc"; "apple"]
  /\ Spec.ascending_ignoring_case ["Zinc"; "apple"] = false
  /\ Spec.ascending_ignoring_case ["apple"; "Zinc"] = true.
Proof. repeat split; vm_compute; reflexivity. Qed.

(** ** The heap: what a call writes *)

Section Frame.

Import Store.

Lemma keeps_ret n {A} (a : A) (Q : A -> Prop) : Q a -> keeps n (ret a) Q.
Proof. intros Ha h Hn. simpl. repeat split; auto. intros a' [= <-]. exact Ha. Qed.

Lemma keeps_raise n {A} (Q : A -> Prop) : keeps n (@raise A) Q.
Proof. intros h Hn. simpl. repeat split; auto. discriminate. Qed.

Lemma keeps_lift n {A} (o : option A) : keeps n (lift o) (fun _ => True).
Proof. intros h Hn. simpl. repeat split; auto. Qed.

Lemma keeps_read n (l : loc) : keeps n (read l) (fun _ => True).
Proof. intros h Hn. simpl. repeat split; auto. Qed.

Lemma keeps_alloc n (f : frame) : keeps n (alloc f) (fresh_from n).
Proof.
  intros h Hn. unfold alloc, fresh_from. cbn [fst snd]. split; [| split].
  - apply take_app_le. exact Hn.
  - rewrite length_app. simpl. lia.
  - intros a [= <-]. exact Hn.
Qed.

Lemma keeps_write n (l : loc) (f : frame) :
  fresh_from n l -> keeps n (write l f) (fun _ => True).
Proof.
  intros Hl h Hn. unfold write. cbn [fst snd]. split; [| split; [| auto]].
  - apply take_insert_ge. exact Hl.
  - rewrite length_insert. lia.
Qed.

Lemma keeps_bind n {A B} (m : M A) (k : A -> M B) (Q : A -> Prop) (R : B -> Prop) :
  keeps n m Q -> (forall a, Q a -> keeps n (k a) R) -> keeps n (bind m k) R.
Proof.
  intros Hm Hk h Hn. unfold bind.
  destruct (Hm h Hn) as (Ht & Hlen & HQ).
  destruct (m h) as [[a |] h'] eqn:E; simpl in *.
  - destruct (Hk a (HQ a eq_refl) h' ltac:(lia)) as (Ht' & Hlen' & HR).
    split; [congruence | split; [lia | exact HR]].
  - split; [exact Ht | split; [exact Hlen | discriminate]].
Qed.

Lemma keeps_weaken n {A} (m : M A) (Q Q' : A -> Prop) :
  keeps n m Q -> (forall a, Q a -> Q' a) -> keeps n m Q'.
Proof.
  intros Hm HQ h Hn. destruct (Hm h Hn) as (Ht & Hlen & H).
  repeat split; auto.
Qed.

Ltac keeps_step :=
  first
    [ apply keeps_ret
    | apply keeps_raise
    | apply keeps_alloc
    | apply keeps_write; assumption
    | eapply keeps_bind; [apply keeps_read | intros ? _]
    | eapply keeps_weaken; [apply keeps_lift | auto]
    | eapply keeps_weaken; [apply keeps_read | auto] ].

Lemma keeps_copy n (l : loc) : keeps n (copy l) (fresh_from n).
Proof. unfold copy. repeat keeps_step. Qed.

Lemma keeps_merge_frames n (df onhand_df : loc) :
  keeps n (merge_frames df onhand_df) (fresh_from n).
Proof.
  unfold merge_frames. do 2 keeps_step.
  destruct a, a0; keeps_step.
Qed.

Lemma keeps_has_on_hand n (df : loc) : keeps n (has_on_hand df) (fun _ => True).
Proof. unfold has_on_hand. keeps_step. destruct a; keeps_step; exact I. Qed.

Lemma keeps_set_on_hand n (df : loc) (x : float) :
  fresh_from n df -> keeps n (set_on_hand df x) (fun _ => True).
Proof. intros Hdf. unfold set_on_hand. keeps_step. destruct a; keeps_step. Qed.

Lemma keeps_set_metrics n (df : loc) (cases_sold : float) :
  fresh_from n df -> keeps n (set_metrics df cases_sold) (fun _ => True).
Proof. intros Hdf. unfold set_metrics. keeps_step. destruct a; keeps_step. Qed.

Lemma keeps_work_rows n (df : loc) : keeps n (work_rows df) (fun _ => True).
Proof. unfold work_rows. keeps_step. destruct a; keeps_step; exact I. Qed.

Lemma keeps_select n (df : loc) (mask : Row.row -> bool) :
  keeps n (select df mask) (fresh_from n).
Proof.
  unfold select. eapply keeps_bind; [apply keeps_work_rows | intros rows _].
  keeps_step.
Qed.

Lemma keeps_is_empty n (df : loc) : keeps n (is_empty df) (fun _ => True).
Proof.
  unfold is_empty. eapply keeps_bind; [apply keeps_work_rows | intros rows _].
  keeps_step. exact I.
Qed.

Lemma keeps_set_max_cases n (df : loc) :
  fresh_from n df -> keeps n (set_max_cases df) (fun _ => True).
Proof.
  intros Hdf. unfold set_max_cases.
  eapply keeps_bind; [apply keeps_work_rows | intros rows _]. keeps_step.
Qed.

Lemma keeps_max_cases_column n (df : loc) :
  keeps n (max_cases_column df) (fun _ => True).
Proof.
  unfold max_cases_column. keeps_step.
  destruct a as [| | | rows [col |]]; keeps_step; exact I.
Qed.

Lemma keeps_sorted_copy n (df : loc) : keeps n (sorted_copy df) (fresh_from n).
Proof.
  unfold sorted_copy. eapply keeps_bind; [apply keeps_work_rows | intros rows _].
  keeps_step.
Qed.

(** Every column assignment of [compute_results] goes to a frame the call
    itself has built. *)
Lemma keeps_compute_results n (components : loc) (onhand_df : option loc)
    (cases_sold : float) :
  keeps n (Store.compute_results components onhand_df cases_sold) (fun _ => True).
Proof.
  unfold Store.compute_results.
  eapply keeps_bind; [apply keeps_copy | intros df0 Hdf0].
  eapply keeps_bind with (Q := fresh_from n).
  { destruct onhand_df; [apply keeps_merge_frames | apply keeps_ret, Hdf0]. }
  intros df Hdf.
  eapply keeps_bind; [apply keeps_has_on_hand | intros has _].
  eapply keeps_bind with (Q := fun _ => True).
  { destruct has; [apply keeps_ret; exact I | apply keeps_set_on_hand, Hdf]. }
  intros _ _.
  eapply keeps_bind; [apply keeps_set_metrics, Hdf | intros _ _].
  eapply keeps_bind; [apply keeps_select | intros candidates _].
  eapply keeps_bind; [apply keeps_is_empty | intros empty _].
  eapply keeps_bind with (Q := fun _ => True).
  { destruct empty; simpl; [apply keeps_ret; exact I |].
    eapply keeps_bind; [apply keeps_set_max_cases, Hdf | intros _ _].
    eapply keeps_bind; [apply keeps_max_cases_column | intros col _].
    apply keeps_lift. }
  intros m _.
  eapply keeps_bind; [apply keeps_select | intros shortages _].
  eapply keeps_bind; [apply keeps_sorted_copy | intros display _].
  apply keeps_ret. exact I.
Qed.

Lemma compute_results_extends_heap (h : heap) (components : loc)
    (onhand_df : option loc) (cases_sold : float) :
  exists fresh,
    snd (Store.compute_results components onhand_df cases_sold h) = (h ++ fresh)%list.
Proof.
  destruct (keeps_compute_results (length h) components onhand_df cases_sold h
              (Nat.le_refl _)) as (Ht & _ & _).
  rewrite (firstn_all h) in Ht.
  exists (drop (length h) (snd (Store.compute_results components onhand_df cases_sold h))).
  rewrite <- (take_drop (length h)
                (snd (Store.compute_results components onhand_df cases_sold h))) at 1.
  rewrite Ht. reflexivity.
Qed.

End Frame.

(** ** The Store.heap: what a call computes *)

Section Run.


Lemma bind_bind {A B C} (m : Store.M A) (k1 : A -> Store.M B) (k2 : B -> Store.M C) (h : Store.heap) :
  Store.bind (Store.bind m k1) k2 h = Store.bind m (fun a => Store.bind (k1 a) k2) h.
Proof. unfold Store.bind. destruct (m h) as [[a |] h']; reflexivity. Qed.

Lemma bind_ret {A B} (a : A) (k : A -> Store.M B) (h : Store.heap) : Store.bind (Store.ret a) k h = k a h.
Proof. reflexivity. Qed.

Lemma bind_raise {A B} (k : A -> Store.M B) (h : Store.heap) : Store.bind Store.raise k h = (None, h).
Proof. reflexivity. Qed.

Lemma bind_lift {A B} (o : option A) (k : A -> Store.M B) (h : Store.heap) :
  Store.bind (Store.lift o) k h = match o with Some a => k a h | None => (None, h) end.
Proof. reflexivity. Qed.

Lemma bind_read_old {B} (h ext : Store.heap) (l : Store.loc) (f : Store.frame) (k : Store.frame -> Store.M B) :
  h !! l = Some f -> Store.bind (Store.read l) k (h ++ ext)%list = k f (h ++ ext)%list.
Proof.
  intros H. unfold Store.bind, Store.read. rewrite (lookup_app_l_Some _ _ _ _ H). reflexivity.
Qed.

Lemma lookup_new (h ext : Store.heap) (i : nat) :
  (h ++ ext)%list !! (length h + i)%nat = ext !! i.
Proof.
  rewrite lookup_app_r by lia.
  replace (length h + i - length h)%nat with i by lia. reflexivity.
Qed.

Lemma bind_read_new {B} (h ext : Store.heap) (i : nat) (k : Store.frame -> Store.M B) :
  Store.bind (Store.read (length h + i)) k (h ++ ext)%list
  = match ext !! i with
    | Some f => k f (h ++ ext)%list
    | None => (None, (h ++ ext)%list)
    end.
Proof. unfold Store.bind, Store.read. rewrite lookup_new. reflexivity. Qed.

Lemma bind_alloc {B} (h ext : Store.heap) (f : Store.frame) (k : Store.loc -> Store.M B) :
  Store.bind (Store.alloc f) k (h ++ ext)%list
  = k (length h + length ext)%nat (h ++ (ext ++ [f]))%list.
Proof. unfold Store.bind, Store.alloc. rewrite length_app, <- List.app_assoc. reflexivity. Qed.

Lemma bind_write {B} (h ext : Store.heap) (i : nat) (f : Store.frame) (k : unit -> Store.M B) :
  Store.bind (Store.write (length h + i) f) k (h ++ ext)%list = k tt (h ++ <[i := f]> ext)%list.
Proof. unfold Store.bind, Store.write. rewrite insert_app_r. reflexivity. Qed.

(** One statement of the program, run on a heap [h ++ ext] whose new part
    [ext] is known. *)
Ltac run_step Hc Ho :=
  first
    [ rewrite bind_bind
    | rewrite bind_ret
    | rewrite bind_raise
    | rewrite bind_lift
    | rewrite bind_read_new
    | rewrite (bind_read_old _ _ _ _ _ Hc)
    | rewrite (bind_read_old _ _ _ _ _ Ho)
    | rewrite bind_alloc
    | rewrite bind_write
    | progress unfold Store.work_rows ];
  cbn [lookup list_lookup length app insert list_insert Nat.add negb].

Ltac run_view :=
  unfold Store.view, Store.ret; rewrite !lookup_new;
  cbn [lookup list_lookup]; reflexivity.

Lemma returned_compute_results F onhand q :
  Store.returned (compute_results F onhand q) =
  match (match List.filter is_candidate (reconcile F onhand q) with
         | [] => Some 0
         | _ => math_floor
                  (series_min (List.map MaxCasesByItem (reconcile F onhand q)))
         end) with
  | Some m =>
      Some (Some (Store.WorkFrame (display (reconcile F onhand q)) None), m,
            Some (Store.WorkFrame (shortages (reconcile F onhand q)) None))
  | None => None
  end.
Proof.
  unfold Store.returned, compute_results, max_sellable, candidates. cbv zeta.
  destruct (List.filter is_candidate (reconcile F onhand q)); simpl.
  - reflexivity.
  - destruct (math_floor _); reflexivity.
Qed.

(** The call on the heap returns the tables of the function on rows. *)
Lemma compute_results_view (h : Store.heap) (components : Store.loc)
    (onhand_df : option Store.loc) (F : list Formula.row)
    (onhand : option (list Stock.row)) (cases_sold : float) :
  h !! components = Some (Store.FormulaFrame F) ->
  Store.points_to h onhand_df onhand ->
  Store.view (Store.compute_results components onhand_df cases_sold h)
  = Store.returned (compute_results F onhand cases_sold).
Proof.
  intros Hc Ho. rewrite returned_compute_results.
  rewrite <- (app_nil_r h) at 1.
  unfold Store.compute_results, Store.copy, Store.merge_frames,
    Store.has_on_hand, Store.set_on_hand, Store.set_metrics, Store.select,
    Store.is_empty, Store.set_max_cases, Store.max_cases_column,
    Store.sorted_copy.
  unfold reconcile, attach_on_hand.
  destruct onhand_df as [o |], onhand as [S |]; simpl in Ho; try contradiction.
  - repeat run_step Hc Ho.
    destruct (List.filter is_candidate _) as [| r0 cands] eqn:E;
      cbn [negb]; repeat run_step Hc Ho; [run_view |].
    destruct (math_floor _) as [m |]; repeat run_step Hc Ho;
      [run_view | reflexivity].
  - repeat run_step Hc Hc.
    destruct (List.filter is_candidate _) as [| r0 cands] eqn:E;
      cbn [negb]; repeat run_step Hc Hc; [run_view |].
    destruct (math_floor _) as [m |]; repeat run_step Hc Hc;
      [run_view | reflexivity].
Qed.

End Run.

(** C10: a call of [compute_results] on a components frame and an on-hand
    frame (or no on-hand frame) leaves every frame that was in the heap
    before the call as it was, the two arguments included: the heap after
    the call is the heap before it followed by the frames the call built.
    The call returns the tables of the function on rows, and a second call
    with the same arguments returns the same tables and the same integer. *)
Theorem compute_results_keeps_arguments
    (h : list Store.frame) (components : nat) (onhand_df : option nat)
    (F : list Formula.row) (onhand : option (list Stock.row))
    (cases_sold : float) :
  h !! components = Some (Store.FormulaFrame F) ->
  Store.points_to h onhand_df onhand ->
  (exists fresh,
      snd (Store.compute_results components onhand_df cases_sold h)
      = (h ++ fresh)%list)
  /\ snd (Store.compute_results components onhand_df cases_sold h) !! components
     = Some (Store.FormulaFrame F)
  /\ Store.points_to
       (snd (Store.compute_results components onhand_df cases_sold h))
       onhand_df onhand
  /\ Store.view (Store.compute_results components onhand_df cases_sold h)
     = Store.returned (compute_results F onhand cases_sold)
  /\ Store.view
       (Store.compute_results components onhand_df cases_sold
          (snd (Store.compute_results components onhand_df cases_sold h)))
     = Store.view (Store.compute_results components onhand_df cases_sold h).
Proof.
  intros Hc Ho.
  destruct (compute_results_extends_heap h components onhand_df cases_sold)
    as [fresh Hfresh].
  assert (Hc' : snd (Store.compute_results components onhand_df cases_sold h)
                !! components = Some (Store.FormulaFrame F)).
  { rewrite Hfresh. apply lookup_app_l_Some. exact Hc. }
  assert (Ho' : Store.points_to
                  (snd (Store.compute_results components onhand_df cases_sold h))
                  onhand_df onhand).
  { rewrite Hfresh. unfold Store.points_to in *.
    destruct onhand_df as [o |], onhand as [S |]; try exact Ho.
    apply lookup_app_l_Some. exact Ho. }
  split; [exists fresh; exact Hfresh |].
  split; [exact Hc' |]. split; [exact Ho' |].
  rewrite (compute_results_view _ _ _ F onhand cases_sold Hc' Ho').
  rewrite (compute_results_view _ _ _ F onhand cases_sold Hc Ho).
  split; reflexivity.
Qed.

Lemma compute_results_keeps_arguments_witness :
  (exists fresh,
      snd (Store.compute_results 0 (Some 1%nat) 4%float
             [Store.FormulaFrame Sample.formula; Store.StockFrame Sample.stock])
      = ([Store.FormulaFrame Sample.formula; Store.StockFrame Sample.stock]
           ++ fresh)%list)
  /\ snd (Store.compute_results 0 (Some 1%nat) 4%float
            [Store.FormulaFrame Sample.formula; Store.StockFrame Sample.stock])
     !! 0%nat
     = Some (Store.FormulaFrame Sample.formula)
  /\ Store.points_to
       (snd (Store.compute_results 0 (Some 1%nat) 4%float
               [Store.FormulaFrame Sample.formula; Store.StockFrame Sample.stock]))
       (Some 1%nat) (Some Sample.stock)
  /\ Store.view
       (Store.compute_results 0 (Some 1%nat) 4%float
          [Store.FormulaFrame Sample.formula; Store.StockFrame Sample.stock])
     = Store.returned (compute_results Sample.formula (Some Sample.stock) 4%float)
  /\ Store.view
       (Store.compute_results 0 (Some 1%nat) 4%float
          (snd (Store.compute_results 0 (Some 1%nat) 4%float
                  [Store.FormulaFrame Sample.formula;
                   Store.StockFrame Sample.stock])))
     = Store.view
         (Store.compute_results 0 (Some 1%nat) 4%float
            [Store.FormulaFrame Sample.formula; Store.StockFrame Sample.stock]).
Proof.
  apply (compute_results_keeps_arguments
           [Store.FormulaFrame Sample.formula; Store.StockFrame Sample.stock]
           0%nat (Some 1%nat) Sample.formula (Some Sample.stock) 4%float).
  - reflexivity.
  - reflexivity.
Defined.

(** * Further properties *)

(** ** More on [compute_results] *)

Section OrderSize.

Lemma candidates_length_order_size (q q' : float) (ms : list Merged.row) :
  length (candidates (List.map (derive q) ms))
  = length (candidates (List.map (derive q') ms)).
Proof.
  unfold candidates. induction ms as [| m ms IH]; simpl; [reflexivity |].
  change (is_candidate (derive q' m)) with (is_candidate (derive q m)).
  destruct (is_candidate (derive q m)); simpl; congruence.
Qed.

Lemma max_cases_order_size (q q' : float) (ms : list Merged.row) :
  List.map MaxCasesByItem (List.map (derive q) ms)
  = List.map MaxCasesByItem (List.map (derive q') ms).
Proof. rewrite !List.map_map. reflexivity. Qed.

Lemma max_sellable_order_size components onhand_df (q q' : float) :
  max_sellable (reconcile components onhand_df q)
  = max_sellable (reconcile components onhand_df q').
Proof.
  unfold max_sellable, reconcile.
  pose proof (candidates_length_order_size q q' (attach_on_hand components onhand_df)) as Hlen.
  rewrite (max_cases_order_size q q').
  destruct (candidates (List.map (derive q) _)), (candidates (List.map (derive q') _));
    simpl in Hlen; try discriminate; reflexivity.
Qed.

End OrderSize.

(** X1: the number of sellable cases, and whether the call raises, do not
    depend on the order size. *)
Theorem max_sellable_ignores_order_size
    (components : list Formula.row) (onhand_df : option (list Stock.row))
    (cases_sold cases_sold' : float) :
  option_map (fun res => snd (fst res))
             (compute_results components onhand_df cases_sold)
  = option_map (fun res => snd (fst res))
               (compute_results components onhand_df cases_sold').
Proof.
  unfold compute_results.
  rewrite (max_sellable_order_size components onhand_df cases_sold cases_sold').
  destruct (max_sellable (reconcile components onhand_df cases_sold')); reflexivity.
Qed.

Section OtherMaterials.

Lemma filter_filter_implied {A} (p r : A -> bool) (l : list A) :
  (forall x, In x l -> p x = true -> r x = true) ->
  List.filter p (List.filter r l) = List.filter p l.
Proof.
  induction l as [| x l IH]; simpl; intros H; [reflexivity |].
  destruct (r x) eqn:Er; simpl.
  - rewrite IH by (intros; apply H; auto). reflexivity.
  - destruct (p x) eqn:Ep.
    + rewrite (H x (or_introl eq_refl) Ep) in Er. discriminate.
    + apply IH. intros; apply H; auto.
Qed.

Lemma matching_in_formula (F : list Formula.row) (S : list Stock.row) (f : Formula.row) :
  In f F -> matching f (List.filter (in_formula F) S) = matching f S.
Proof.
  intros Hf. unfold matching. apply filter_filter_implied.
  intros s _ Hs. unfold in_formula. apply existsb_exists. exists f. auto.
Qed.

Lemma flat_map_ext_In {A B} (g g' : A -> list B) (l : list A) :
  (forall a, In a l -> g a = g' a) -> List.flat_map g l = List.flat_map g' l.
Proof.
  induction l as [| a l IH]; simpl; intros H; [reflexivity |].
  rewrite (H a (or_introl eq_refl)), IH by (intros; apply H; auto). reflexivity.
Qed.

Lemma merge_in_formula (F : list Formula.row) (S : list Stock.row) :
  merge F (List.filter (in_formula F) S) = merge F S.
Proof.
  unfold merge. apply flat_map_ext_In. intros f Hf.
  unfold merge_row. rewrite (matching_in_formula F S f Hf). reflexivity.
Qed.

End OtherMaterials.

(** X2: stock rows of materials the formula does not name change nothing
    in what [compute_results] returns. *)
Theorem stock_of_other_materials_is_ignored
    (components : list Formula.row) (onhand : list Stock.row) (cases_sold : float) :
  compute_results components (Some (List.filter (in_formula components) onhand)) cases_sold
  = compute_results components (Some onhand) cases_sold.
Proof.
  unfold compute_results, reconcile, attach_on_hand.
  rewrite merge_in_formula. reflexivity.
Qed.

Section ZeroOrder.
Local Open Scope float_scope.

Lemma remaining_zero_order (p oh : float) :
  (oh <? 0) = false -> (oh - p * 0 <? 0) = false.
Proof.
  rewrite !ltb_spec, sub_spec, mul_spec, Prim2SF_zero.
  unfold SFltb, SF64sub, SF64mul.
  destruct (Prim2SF p) as [sp | sp | | sp mp ep], (Prim2SF oh) as [so | so | | so mo eo];
    simpl; try reflexivity; try (destruct sp, so; simpl; intros; (reflexivity || assumption)).
Qed.
End ZeroOrder.

(** ** The editing table of the page *)

Section Editing.

Lemma same_fixed_with_on_hand (f : Formula.row) (c : cell) (e : Merged.row) :
  same_fixed (with_on_hand f c) e -> e = with_on_hand f (Merged.On_Hand e).
Proof.
  destruct e as [k p u o]. unfold same_fixed, with_on_hand. simpl.
  intros (-> & -> & ->). reflexivity.
Qed.

Lemma Forall2_rows_of (f : Formula.row) (rows edited : list Merged.row) :
  rows_of f rows -> Forall2 same_fixed rows edited -> rows_of f edited.
Proof.
  intros [Hne Hrows] H2. split.
  - intros ->. inversion H2; subst. apply Hne. reflexivity.
  - clear Hne. induction H2 as [| b e rows edited Hbe _ IH]; intros m Hm;
      [destruct Hm |].
    destruct Hm as [<- | Hm].
    + destruct (Hrows b (or_introl eq_refl)) as [c ->].
      exists (Merged.On_Hand e). apply (same_fixed_with_on_hand f c). exact Hbe.
    + apply IH; [intros; apply Hrows; right; assumption | exact Hm].
Qed.

Lemma merge_row_own_rows (f : Formula.row) (own others : list Merged.row) :
  rows_of f own ->
  (forall e, In e others -> Merged.Component e <> Formula.Component f) ->
  merge_row (edited_onhand (own ++ others)) f = own.
Proof.
  intros [Hne Hown] Hothers. unfold merge_row, matching, edited_onhand.
  rewrite List.map_app, List.filter_app.
  rewrite (filter_all _ (List.map _ own)), (filter_none _ (List.map _ others)).
  - rewrite List.app_nil_r. destruct own as [| e own]; [contradiction |].
    cbn [List.map]. f_equal.
    + simpl. destruct (Hown e (or_introl eq_refl)) as [c ->]. reflexivity.
    + rewrite List.map_map. clear Hne. 
      assert (H : forall m, In m own -> exists c, m = with_on_hand f c)
        by (intros; apply Hown; right; assumption).
      clear Hown. induction own as [| m own IH]; simpl; [reflexivity |].
      destruct (H m (or_introl eq_refl)) as [c ->]. simpl. f_equal.
      apply IH. intros; apply H; right; assumption.
  - intros s Hs. apply in_map_iff in Hs. destruct Hs as (e & <- & He). simpl.
    apply String.eqb_neq. apply Hothers. exact He.
  - intros s Hs. apply in_map_iff in Hs. destruct Hs as (e & <- & He). simpl.
    apply String.eqb_eq. destruct (Hown e He) as [c ->]. reflexivity.
Qed.

Lemma merge_row_skip_rows (f : Formula.row) (other rows : list Merged.row) :
  (forall e, In e other -> Merged.Component e <> Formula.Component f) ->
  merge_row (edited_onhand (other ++ rows)) f = merge_row (edited_onhand rows) f.
Proof.
  intros Hother. unfold merge_row, matching, edited_onhand.
  rewrite List.map_app, List.filter_app, (filter_none _ (List.map _ other)); [reflexivity |].
  intros s Hs. apply in_map_iff in Hs. destruct Hs as (e & <- & He). simpl.
  apply String.eqb_neq. apply Hother. exact He.
Qed.

(** Joining the components with the rows of an edited table gives the
    edited table back, when no two components have the same name. *)
Lemma merge_edited (g : Formula.row -> list Merged.row)
    (comps : list Formula.row) (edited : list Merged.row) :
  List.NoDup (List.map Formula.Component comps) ->
  (forall f, rows_of f (g f)) ->
  Forall2 same_fixed (List.flat_map g comps) edited ->
  merge comps (edited_onhand edited) = edited
  /\ forall e, In e edited -> In (Merged.Component e) (List.map Formula.Component comps).
Proof.
  intros Hnd Hg. revert edited.
  induction comps as [| f0 rest IH]; simpl; intros edited H2.
  - inversion H2; subst. split; [reflexivity | intros e []].
  - inversion Hnd as [| k ks Hnotin Hnd']; subst.
    apply Forall2_app_inv_l in H2. destruct H2 as (own & others & Hown & Hothers & ->).
    pose proof (Forall2_rows_of f0 _ _ (Hg f0) Hown) as Rown.
    destruct (IH Hnd' others Hothers) as [IHm IHk].
    assert (Hdiff : forall e, In e others -> Merged.Component e <> Formula.Component f0).
    { intros e He E. apply Hnotin. rewrite <- E. apply IHk. exact He. }
    split.
    + unfold merge in *. simpl. rewrite (merge_row_own_rows f0 own others Rown Hdiff).
      f_equal. rewrite <- IHm at 2. apply flat_map_ext_In. intros f Hf.
      apply merge_row_skip_rows. intros e He E.
      destruct Rown as [_ Rown]. destruct (Rown e He) as [c ->]. simpl in E.
      apply Hnotin. rewrite E. apply in_map. exact Hf.
    + intros e He. apply in_app_or in He. destruct He as [He | He].
      * left. destruct Rown as [_ Rown]. destruct (Rown e He) as [c ->]. reflexivity.
      * right. apply IHk. exact He.
Qed.

Lemma base_flat_map comps onhand :
  base comps onhand
  = List.flat_map
      (fun f => List.map numeric_on_hand
                  (merge_row (match onhand with Some rows => rows | None => [] end) f))
      comps.
Proof.
  unfold base, merge. fold numeric_on_hand.
  induction comps as [| f comps IH]; simpl; [reflexivity |].
  rewrite List.map_app, IH. reflexivity.
Qed.

Lemma rows_of_base_group (S : list Stock.row) (f : Formula.row) :
  rows_of f (List.map numeric_on_hand (merge_row S f)).
Proof.
  split.
  - pose proof (merge_row_length f S) as Hlen.
    destruct (merge_row S f); simpl in *; [lia | discriminate].
  - intros m Hm. apply in_map_iff in Hm. destruct Hm as (m0 & <- & Hm0).
    apply in_merge_row in Hm0.
    destruct Hm0 as [(s & _ & _ & ->) | (_ & ->)]; eexists; reflexivity.
Qed.

Lemma reconcile_edited comps onhand edited q :
  List.NoDup (List.map Formula.Component comps) ->
  edit_of (base comps onhand) edited ->
  reconcile comps (Some (edited_onhand edited)) q = List.map (derive q) edited.
Proof.
  intros Hnd He. unfold reconcile, attach_on_hand.
  rewrite base_flat_map in He.
  destruct (merge_edited _ comps edited Hnd
              (rows_of_base_group (match onhand with Some rows => rows | None => [] end)) He)
    as [-> _].
  reflexivity.
Qed.

Lemma normalize_idempotent (c : cell) : normalize (CNum (normalize c)) = normalize c.
Proof.
  unfold normalize at 1. simpl. unfold fillna at 1.
  fold (normalize c). unfold normalize. rewrite fillna_not_nan. reflexivity.
Qed.

Lemma derive_numeric_on_hand q m : derive q (numeric_on_hand m) = derive q m.
Proof.
  unfold derive, numeric_on_hand. simpl. rewrite normalize_idempotent. reflexivity.
Qed.

Lemma edit_of_refl rows : edit_of rows rows.
Proof. unfold edit_of. induction rows; constructor; auto. Qed.

Lemma merge_no_stock comps :
  merge comps [] = List.map (fun f => with_on_hand f CMissing) comps.
Proof. unfold merge. induction comps; simpl; [reflexivity | congruence]. Qed.

Lemma reconcile_base comps onhand q :
  List.map (derive q) (base comps onhand) = reconcile comps onhand q.
Proof.
  unfold base, reconcile, attach_on_hand. fold numeric_on_hand.
  rewrite List.map_map.
  rewrite (List.map_ext _ (derive q) (derive_numeric_on_hand q)).
  destruct onhand as [S |]; [reflexivity |].
  rewrite merge_no_stock, !List.map_map. reflexivity.
Qed.

End Editing.

(** ** Loading a workbook *)

Section LoadFacts.

Variables lower strip : string -> string.

Lemma pick_formula_None (wb : workbook) :
  pick_formula lower wb = None <-> wb = [].
Proof.
  unfold pick_formula. split.
  - destruct (List.find _ wb) eqn:E; [discriminate |].
    destruct wb; [reflexivity | discriminate].
  - intros ->. reflexivity.
Qed.

Lemma pick_formula_In (wb : workbook) (ns : string * sheet) :
  pick_formula lower wb = Some ns -> In ns wb.
Proof.
  unfold pick_formula. destruct (List.find _ wb) eqn:E.
  - intros [= <-]. apply find_some in E. tauto.
  - destruct wb as [| x wb]; simpl; [discriminate |]. intros [= <-]. left. reflexivity.
Qed.

Lemma key_is_true (k : string) (c : header * list cell) :
  key_is lower strip k c = true <-> header_key lower strip (fst c) = Some k.
Proof.
  unfold key_is. destruct (header_key lower strip (fst c)) as [k' |].
  - rewrite String.eqb_eq. split; [intros ->; reflexivity | intros [= ->]; reflexivity].
  - split; discriminate.
Qed.

Lemma key_is_false (k : string) (c : header * list cell) :
  key_is lower strip k c = false <-> header_key lower strip (fst c) <> Some k.
Proof.
  rewrite <- key_is_true. destruct (key_is lower strip k c); split; congruence.
Qed.

Lemma text_headers_false (df : sheet) :
  text_headers df = false <-> exists c, In c df /\ fst c = HOther.
Proof.
  unfold text_headers. induction df as [| [h cells] df IH]; simpl.
  - split; [discriminate | intros (c & [] & _)].
  - destruct h; simpl.
    + rewrite IH. split.
      * intros (c & Hc & E). exists c. auto.
      * intros (c & [<- | Hc] & E); [discriminate | exists c; auto].
    + split; [| reflexivity]. intros _. exists (HOther, cells). auto.
Qed.

Lemma text_headers_true (df : sheet) :
  text_headers df = true -> forall c, In c df -> exists name, fst c = HText name.
Proof.
  unfold text_headers. intros H c Hc.
  pose proof (proj1 (forallb_forall _ df) H c Hc) as Hh. simpl in Hh.
  destruct (fst c) as [name |]; [exists name; reflexivity | discriminate].
Qed.

Lemma cols_get_None (df : sheet) (k : string) :
  cols_get lower strip df k = None <->
  forall c, In c df -> header_key lower strip (fst c) <> Some k.
Proof.
  unfold cols_get. split.
  - intros E c Hc. apply in_rev in Hc.
    apply key_is_false. exact (find_none _ _ E c Hc).
  - intros H. destruct (List.find _ (rev df)) as [c |] eqn:E; [exfalso | reflexivity].
    apply find_some in E. destruct E as [Hc Hk].
    apply in_rev in Hc. apply key_is_true in Hk. exact (H c Hc Hk).
Qed.

Lemma cols_get_Some (df : sheet) (k : string) (c : header * list cell) :
  cols_get lower strip df k = Some c ->
  In c df /\ header_key lower strip (fst c) = Some k.
Proof.
  unfold cols_get. intros E. apply find_some in E. destruct E as [Hc Hk].
  split; [apply in_rev; exact Hc | apply key_is_true; exact Hk].
Qed.

(** The key stands for the last column that normalises to it. *)
Lemma cols_get_last (pre post : sheet) (c : header * list cell) (k : string) :
  header_key lower strip (fst c) = Some k ->
  (forall c', In c' post -> header_key lower strip (fst c') <> Some k) ->
  cols_get lower strip (pre ++ c :: post)%list k = Some c.
Proof.
  intros Hk Hpost. unfold cols_get.
  rewrite rev_app_distr. simpl. rewrite <- List.app_assoc. simpl.
  assert (Hnone : List.find (key_is lower strip k) (rev post) = None).
  { apply (proj2 (cols_get_None post k)). exact Hpost. }
  revert Hnone. generalize (rev post) as l. induction l as [| x l IH]; simpl.
  - intros _. rewrite (proj2 (key_is_true k c) Hk). reflexivity.
  - destruct (key_is lower strip k x); [discriminate | exact IH].
Qed.

Lemma find_first {A} (p : A -> bool) (l : list A) (x : A) :
  List.find p l = Some x ->
  exists pre post, l = (pre ++ x :: post)%list /\ p x = true
                   /\ forall y, In y pre -> p y = false.
Proof.
  induction l as [| a l IH]; simpl; [discriminate |].
  destruct (p a) eqn:Ea.
  - intros [= <-]. exists [], l. repeat split; auto. intros y [].
  - intros E. destruct (IH E) as (pre & post & -> & Hx & Hpre).
    exists (a :: pre), post. repeat split; auto.
    intros y [<- | Hy]; auto.
Qed.

Lemma find_first_iff {A} (p : A -> bool) (l : list A) (x : A) :
  List.find p l = Some x <->
  exists pre post, l = (pre ++ x :: post)%list /\ p x = true
                   /\ forall y, In y pre -> p y = false.
Proof.
  split; [apply find_first |].
  intros (pre & post & -> & Hx & Hpre).
  induction pre as [| a pre IH]; simpl.
  - rewrite Hx. reflexivity.
  - rewrite (Hpre a (or_introl eq_refl)). apply IH. intros; apply Hpre; right; assumption.
Qed.

Lemma pick_formula_first (wb : workbook) (pick : string) (df : sheet) :
  pick_formula lower wb = Some (pick, df) ->
  exists pre post,
    wb = (pre ++ (pick, df) :: post)%list
    /\ (forall ns, In ns pre -> formula_like lower (fst ns) = false)
    /\ (formula_like lower pick = true
        \/ (pre = [] /\ forall ns, In ns post -> formula_like lower (fst ns) = false)).
Proof.
  unfold pick_formula. destruct (List.find _ wb) as [ns |] eqn:E.
  - intros [= ->]. destruct (find_first _ _ _ E) as (pre & post & -> & Hp & Hpre).
    exists pre, post. repeat split; auto.
  - destruct wb as [| x wb]; simpl; [discriminate |]. intros [= ->].
    exists [], wb. repeat split; [intros ns [] |]. right. split; [reflexivity |].
    intros ns Hns. exact (find_none _ _ E ns (or_intror Hns)).
Qed.

Lemma load_onhand_Some (wb : workbook) (o : sheet) :
  load_onhand lower strip wb = Some (Some o) ->
  exists n inv c oh,
    In (n, inv) wb /\ lower n = "inventory"
    /\ (forall c', In c' inv -> exists name, fst c' = HText name)
    /\ In c inv /\ header_key lower strip (fst c) = Some "component"
    /\ In oh inv /\ header_key lower strip (fst oh) = Some "on_hand"
    /\ o = [(HText "Component", snd c); (HText "On_Hand", snd oh)].
Proof.
  unfold load_onhand. destruct (List.find _ wb) as [[n inv] |] eqn:E; [| discriminate].
  apply find_some in E. destruct E as [Hin Hn]. simpl in Hn. apply String.eqb_eq in Hn.
  destruct (text_headers inv) eqn:Et; [| discriminate].
  destruct (cols_get lower strip inv "component") as [c |] eqn:Ec; [| discriminate].
  destruct (cols_get lower strip inv "on_hand") as [oh |] eqn:Eo; [| discriminate].
  intros [= <-]. apply cols_get_Some in Ec, Eo.
  pose proof (text_headers_true inv Et) as Ht.
  exists n, inv, c, oh. tauto.
Qed.

(** Line 44 raises exactly when the first sheet named inventory has a
    header that is not text. *)
Lemma load_onhand_None (wb : workbook) :
  load_onhand lower strip wb = None <->
  exists pre n inv post,
    wb = (pre ++ (n, inv) :: post)%list
    /\ lower n = "inventory"
    /\ (forall ns, In ns pre -> lower (fst ns) <> "inventory")
    /\ text_headers inv = false.
Proof.
  unfold load_onhand. split.
  - destruct (List.find _ wb) as [[n inv] |] eqn:E; [| discriminate].
    destruct (find_first _ _ _ E) as (pre & post & -> & Hn & Hpre).
    destruct (text_headers inv) eqn:Et.
    + destruct (cols_get lower strip inv "component"),
        (cols_get lower strip inv "on_hand"); discriminate.
    + intros _. exists pre, n, inv, post. repeat split; auto.
      * apply String.eqb_eq. exact Hn.
      * intros ns Hns. apply String.eqb_neq. exact (Hpre ns Hns).
  - intros (pre & n & inv & post & Hwb & Hn & Hpre & Et).
    assert (E : List.find (fun ns => String.eqb (lower (fst ns)) "inventory") wb
                = Some (n, inv)).
    { apply find_first_iff. exists pre, post. repeat split; auto.
      - apply String.eqb_eq. exact Hn.
      - intros ns Hns. apply String.eqb_neq. exact (Hpre ns Hns). }
    rewrite E, Et. reflexivity.
Qed.

Lemma load_onhand_inventory_text (wb : workbook) :
  (forall ns, In ns wb -> lower (fst ns) = "inventory" ->
              forall c, In c (snd ns) -> fst c <> HOther) ->
  exists onhand_df, load_onhand lower strip wb = Some onhand_df.
Proof.
  intros H. destruct (load_onhand lower strip wb) as [o |] eqn:E; [eexists; reflexivity |].
  apply load_onhand_None in E.
  destruct E as (pre & n & inv & post & -> & Hn & _ & Et). exfalso.
  apply text_headers_false in Et. destruct Et as (c & Hc & Ec).
  apply (H (n, inv)) with (c := c); auto.
  apply in_or_app. right. left. reflexivity.
Qed.

(** The function once a sheet has been picked. *)
Lemma load_after_pick (wb : workbook) (pick : string) (df : sheet) :
  pick_formula lower wb = Some (pick, df) ->
  load_components_and_onhand lower strip wb
  = if text_headers df
    then match df with
         | [] => IndexError
         | first :: _ =>
             match cols_get lower strip df "per_case" with
             | None => NoPerCase
             | Some per =>
                 match load_onhand lower strip wb with
                 | Some onhand_df =>
                     Loaded [(HText "Component",
                              snd (match cols_get lower strip df "component" with
                                   | Some c => c
                                   | None => first
                                   end));
                             (HText "Per_Case", snd per);
                             (HText "UOM",
                              match cols_get lower strip df "uom" with
                              | Some u => snd u
                              | None =>
                                  List.map (fun _ => CText "")
                                    (snd (match cols_get lower strip df "component" with
                                          | Some c => c
                                          | None => first
                                          end))
                              end)]
                            onhand_df pick
                 | None => AttributeError
                 end
             end
         end
    else AttributeError.
Proof.
  intros Hp. unfold load_components_and_onhand. rewrite Hp.
  destruct (text_headers df); [| reflexivity].
  destruct df as [| first df'].
  - reflexivity.
  - destruct (cols_get lower strip (first :: df') "component") as [c |]; reflexivity.
Qed.

End LoadFacts.

Lemma loaded_pick_sheet (lower strip : string -> string) (wb : workbook)
    (components : sheet) (onhand_df : option sheet) (pick : string) :
  load_components_and_onhand lower strip wb = Loaded components onhand_df pick ->
  exists df, pick_formula lower wb = Some (pick, df).
Proof.
  destruct (pick_formula lower wb) as [[p df] |] eqn:Ep.
  - rewrite (load_after_pick lower strip wb p df Ep).
    destruct (text_headers df); [| discriminate].
    destruct df as [| first df']; [discriminate |].
    destruct (cols_get lower strip (first :: df') "per_case"); [| discriminate].
    destruct (load_onhand lower strip wb); [| discriminate].
    intros [= _ _ <-]. exists (first :: df'). reflexivity.
  - unfold load_components_and_onhand. rewrite Ep. discriminate.
Qed.

(** A formula sheet with a numeric header beside Component. *)
Example numeric_header_raises :
  load_components_and_onhand ascii_lower ascii_strip
    [("Sheet1", [(HText "Component", [CText "Cap"]); (HOther, [CNum 1])])]
  = AttributeError.
Proof. reflexivity. Qed.

(** X7: the call raises IndexError exactly when the workbook has no sheet
    or the picked sheet has no column; it raises AttributeError exactly
    when the picked sheet has a header that is not text, or when its
    headers are text, one of them normalises to per_case and the first
    sheet named inventory has a header that is not text; and it gives the
    triple of [None] exactly when the picked sheet has columns, all its
    headers are text and none of them normalises to per_case. *)
Theorem load_error_outcomes (lower strip : string -> string) (wb : workbook) :
  (load_components_and_onhand lower strip wb = IndexError <->
   wb = [] \/ exists pick, pick_formula lower wb = Some (pick, []))
  /\ (load_components_and_onhand lower strip wb = AttributeError <->
      exists pick df,
        pick_formula lower wb = Some (pick, df)
        /\ ((exists c, In c df /\ fst c = HOther)
            \/ ((forall c, In c df -> fst c <> HOther)
                /\ (exists c, In c df /\ header_key lower strip (fst c) = Some "per_case")
                /\ exists pre n inv post,
                     wb = (pre ++ (n, inv) :: post)%list
                     /\ lower n = "inventory"
                     /\ (forall ns, In ns pre -> lower (fst ns) <> "inventory")
                     /\ exists c, In c inv /\ fst c = HOther)))
  /\ (load_components_and_onhand lower strip wb = NoPerCase <->
      exists pick df,
        pick_formula lower wb = Some (pick, df) /\ df <> []
        /\ (forall c, In c df -> fst c <> HOther)
        /\ forall c, In c df -> header_key lower strip (fst c) <> Some "per_case").
Proof.
  destruct (pick_formula lower wb) as [[pick df] |] eqn:Ep.
  - rewrite (load_after_pick lower strip wb pick df Ep).
    assert (Hwb : wb <> []) by (intros ->; discriminate).
    assert (Hsame : forall p d, Some (pick, df) = Some (p, d) -> p = pick /\ d = df)
      by (intros p d [= -> ->]; auto).
    destruct (text_headers df) eqn:Et.
    + assert (Htext : forall c, In c df -> fst c <> HOther).
      { intros c Hc E. assert (F : text_headers df = false)
          by (apply text_headers_false; exists c; auto). congruence. }
      destruct df as [| first df'].
      * split; [| split]; split; try discriminate.
        -- intros _. right. exists pick. reflexivity.
        -- reflexivity.
        -- intros (p & d & E & H). apply Hsame in E. destruct E as [_ ->].
           destruct H as [(c & [] & _) | (_ & (c & [] & _) & _)].
        -- intros (p & d & E & Hd & _). apply Hsame in E. destruct E as [_ ->].
           contradiction.
      * destruct (cols_get lower strip (first :: df') "per_case") as [per |] eqn:Epc.
        -- apply cols_get_Some in Epc.
           destruct (load_onhand lower strip wb) as [o |] eqn:Eo.
           ++ split; [| split]; split; try discriminate.
              ** intros [E | (p & E)]; [contradiction | discriminate].
              ** intros (p & d & E & [(c & Hc & Ec) | (_ & _ & Hinv)]);
                   apply Hsame in E; destruct E as [_ ->].
                 --- exfalso. exact (Htext c Hc Ec).
                 --- exfalso.
                     destruct Hinv as (pre & n & inv & post & Hw & Hn & Hpre & Hc).
                     assert (F : load_onhand lower strip wb = None).
                     { apply load_onhand_None. exists pre, n, inv, post.
                       repeat split; auto. apply text_headers_false. exact Hc. }
                     congruence.
              ** intros (p & d & E & _ & _ & H). apply Hsame in E.
                 destruct E as [_ ->]. exfalso.
                 exact (H per (proj1 Epc) (proj2 Epc)).
           ++ split; [| split]; split; try discriminate.
              ** intros [E | (p & E)]; [contradiction | discriminate].
              ** intros _. exists pick, (first :: df'). split; [reflexivity |].
                 right. split; [exact Htext |]. split; [exists per; exact Epc |].
                 apply load_onhand_None in Eo.
                 destruct Eo as (pre & n & inv & post & Hw & Hn & Hpre & Hc).
                 exists pre, n, inv, post. repeat split; auto.
                 apply text_headers_false. exact Hc.
              ** reflexivity.
              ** intros (p & d & E & _ & _ & H). apply Hsame in E.
                 destruct E as [_ ->]. exfalso.
                 exact (H per (proj1 Epc) (proj2 Epc)).
        -- split; [| split]; split; try discriminate.
           ++ intros [E | (p & E)]; [contradiction | discriminate].
           ++ intros (p & d & E & [(c & Hc & Ec) | (_ & (c & Hc & Ec) & _)]);
                apply Hsame in E; destruct E as [_ ->]; exfalso.
              ** exact (Htext c Hc Ec).
              ** exact (proj1 (cols_get_None lower strip _ _) Epc c Hc Ec).
           ++ intros _. exists pick, (first :: df'). split; [reflexivity |].
              split; [discriminate |]. split; [exact Htext |].
              apply cols_get_None. exact Epc.
           ++ reflexivity.
    + apply text_headers_false in Et. split; [| split]; split; try discriminate.
      * intros [E | (p & E)]; [contradiction |]. apply Hsame in E.
        destruct E as [_ <-]. destruct Et as (c & [] & _).
      * intros _. exists pick, df. split; [reflexivity |]. left. exact Et.
      * reflexivity.
      * intros (p & d & E & _ & H & _). apply Hsame in E. destruct E as [_ ->].
        destruct Et as (c & Hc & Ec). exfalso. exact (H c Hc Ec).
  - unfold load_components_and_onhand. rewrite Ep.
    apply pick_formula_None in Ep. subst wb. split; [| split]; split; try discriminate.
    + intros _. left. reflexivity.
    + reflexivity.
    + intros (p & d & E & _). discriminate.
    + intros (p & d & E & _). discriminate.
Qed.

(** X8: on success the components frame has the three columns Component,
    Per_Case and UOM, in this order.  Every header of the picked sheet is
    text.  Per_Case is a column of the picked sheet whose header normalises
    to per_case; Component is the column whose header normalises to
    component, or else the first column of the sheet; UOM is the column
    whose header normalises to uom, or else a column of empty strings; the
    three have the row count of the sheet.  The on-hand frame, when there is
    one, has the columns Component and On_Hand of a sheet named inventory
    whose headers are all text. *)
Theorem loaded_frames_schema
    (lower strip : string -> string) (wb : workbook)
    (components : sheet) (onhand_df : option sheet) (pick : string) :
  load_components_and_onhand lower strip wb = Loaded components onhand_df pick ->
  exists df comp per uom,
    pick_formula lower wb = Some (pick, df)
    /\ (forall c, In c df -> exists name, fst c = HText name)
    /\ components = [(HText "Component", snd comp); (HText "Per_Case", snd per);
                     (HText "UOM", uom)]
    /\ In comp df
    /\ (header_key lower strip (fst comp) = Some "component"
        \/ ((forall c, In c df -> header_key lower strip (fst c) <> Some "component")
            /\ hd_error df = Some comp))
    /\ In per df /\ header_key lower strip (fst per) = Some "per_case"
    /\ ((exists u, In u df /\ header_key lower strip (fst u) = Some "uom" /\ uom = snd u)
        \/ ((forall c, In c df -> header_key lower strip (fst c) <> Some "uom")
            /\ uom = List.map (fun _ => CText "") (snd comp)))
    /\ (forall n, (forall c, In c df -> length (snd c) = n) ->
                  length (snd comp) = n /\ length (snd per) = n /\ length uom = n)
    /\ load_onhand lower strip wb = Some onhand_df
    /\ (forall o, onhand_df = Some o ->
          exists n inv c oh,
            In (n, inv) wb /\ lower n = "inventory"
            /\ (forall c', In c' inv -> exists name, fst c' = HText name)
            /\ In c inv /\ header_key lower strip (fst c) = Some "component"
            /\ In oh inv /\ header_key lower strip (fst oh) = Some "on_hand"
            /\ o = [(HText "Component", snd c); (HText "On_Hand", snd oh)]).
Proof.
  destruct (pick_formula lower wb) as [[p df] |] eqn:Ep;
    [| unfold load_components_and_onhand; rewrite Ep; discriminate].
  rewrite (load_after_pick lower strip wb p df Ep).
  destruct (text_headers df) eqn:Et; [| discriminate].
  destruct df as [| first df']; [discriminate |].
  set (df := first :: df') in *.
  destruct (cols_get lower strip df "per_case") as [per |] eqn:Epc; [| discriminate].
  apply cols_get_Some in Epc. destruct Epc as [Hper Hperk].
  destruct (load_onhand lower strip wb) as [oh |] eqn:Eo; [| discriminate].
  set (comp := match cols_get lower strip df "component" with
               | Some c => c
               | None => first
               end).
  set (uom := match cols_get lower strip df "uom" with
              | Some u => snd u
              | None => List.map (fun _ => CText "") (snd comp)
              end).
  intros [= <- <- <-].
  assert (Hcomp : In comp df
                  /\ (header_key lower strip (fst comp) = Some "component"
                      \/ ((forall c, In c df ->
                                     header_key lower strip (fst c) <> Some "component")
                          /\ hd_error df = Some comp))).
  { subst comp. destruct (cols_get lower strip df "component") as [c |] eqn:Ec.
    - apply cols_get_Some in Ec. tauto.
    - split; [left; reflexivity |]. right.
      split; [apply cols_get_None; exact Ec | reflexivity]. }
  destruct Hcomp as [Hin Hkey].
  assert (Huom : (exists u, In u df /\ header_key lower strip (fst u) = Some "uom"
                            /\ uom = snd u)
                 \/ ((forall c, In c df -> header_key lower strip (fst c) <> Some "uom")
                     /\ uom = List.map (fun _ => CText "") (snd comp))).
  { subst uom. destruct (cols_get lower strip df "uom") as [u |] eqn:Eu.
    - left. apply cols_get_Some in Eu. exists u. tauto.
    - right. split; [apply cols_get_None; exact Eu | reflexivity]. }
  exists df, comp, per, uom.
  split; [reflexivity |].
  split; [apply text_headers_true; exact Et |].
  split; [reflexivity |].
  split; [exact Hin |]. split; [exact Hkey |].
  split; [exact Hper |]. split; [exact Hperk |].
  split; [exact Huom |]. split; [| split; [reflexivity |]].
  - intros n Hn. split; [apply Hn, Hin |]. split; [apply Hn, Hper |].
    destruct Huom as [(u & Hu & _ & ->) | (_ & ->)]; [apply Hn, Hu |].
    rewrite length_map. apply Hn, Hin.
  - intros o ->. apply load_onhand_Some. exact Eo.
Qed.

Lemma loaded_frames_schema_witness :
  exists df comp per uom,
    pick_formula ascii_lower sample_workbook = Some ("Formula", df)
    /\ (forall c, In c df -> exists name, fst c = HText name)
    /\ [(HText "Component", [CText "Bottle"; CText "Cap"]);
        (HText "Per_Case", [CNum 1; CNum 1]);
        (HText "UOM", [CText ""; CText ""])]
       = [(HText "Component", snd comp); (HText "Per_Case", snd per); (HText "UOM", uom)]
    /\ In comp df
    /\ (header_key ascii_lower ascii_strip (fst comp) = Some "component"
        \/ ((forall c, In c df ->
                       header_key ascii_lower ascii_strip (fst c) <> Some "component")
            /\ hd_error df = Some comp))
    /\ In per df /\ header_key ascii_lower ascii_strip (fst per) = Some "per_case"
    /\ ((exists u, In u df /\ header_key ascii_lower ascii_strip (fst u) = Some "uom"
                   /\ uom = snd u)
        \/ ((forall c, In c df -> header_key ascii_lower ascii_strip (fst c) <> Some "uom")
            /\ uom = List.map (fun _ => CText "") (snd comp)))
    /\ (forall n, (forall c, In c df -> length (snd c) = n) ->
                  length (snd comp) = n /\ length (snd per) = n /\ length uom = n)
    /\ load_onhand ascii_lower ascii_strip sample_workbook
       = Some (Some [(HText "Component", [CText "Cap"; CText "Bottle"]);
                     (HText "On_Hand", [CNum 5; CNum 10])])
    /\ (forall o,
          Some [(HText "Component", [CText "Cap"; CText "Bottle"]);
                (HText "On_Hand", [CNum 5; CNum 10])] = Some o ->
          exists n inv c oh,
            In (n, inv) sample_workbook /\ ascii_lower n = "inventory"
            /\ (forall c', In c' inv -> exists name, fst c' = HText name)
            /\ In c inv /\ header_key ascii_lower ascii_strip (fst c) = Some "component"
            /\ In oh inv /\ header_key ascii_lower ascii_strip (fst oh) = Some "on_hand"
            /\ o = [(HText "Component", snd c); (HText "On_Hand", snd oh)]).
Proof.
  apply (loaded_frames_schema ascii_lower ascii_strip sample_workbook).
  vm_compute. reflexivity.
Defined.

(** X9: the sheet that is read as the formula is a sheet of the workbook; no
    sheet before it has a formula name, and either it has one (in any
    letter case) or it is the first sheet and no sheet has one. *)
Theorem loaded_pick_is_first_formula_sheet
    (lower strip : string -> string) (wb : workbook)
    (components : sheet) (onhand_df : option sheet) (pick : string) :
  load_components_and_onhand lower strip wb = Loaded components onhand_df pick ->
  exists pre df post,
    wb = (pre ++ (pick, df) :: post)%list
    /\ (forall ns, In ns pre -> formula_like lower (fst ns) = false)
    /\ (formula_like lower pick = true
        \/ (pre = [] /\ forall ns, In ns post -> formula_like lower (fst ns) = false)).
Proof.
  intros H.
  destruct (loaded_pick_sheet lower strip wb components onhand_df pick H) as [df Hp].
  destruct (pick_formula_first lower wb pick df Hp) as (pre & post & Hwb).
  exists pre, df, post. exact Hwb.
Qed.

Lemma loaded_pick_is_first_formula_sheet_witness :
  exists pre df post,
    sample_workbook = (pre ++ ("Formula", df) :: post)%list
    /\ (forall ns, In ns pre -> formula_like ascii_lower (fst ns) = false)
    /\ (formula_like ascii_lower "Formula" = true
        \/ (pre = [] /\ forall ns, In ns post -> formula_like ascii_lower (fst ns) = false)).
Proof.
  apply (loaded_pick_is_first_formula_sheet ascii_lower ascii_strip sample_workbook
           [(HText "Component", [CText "Bottle"; CText "Cap"]);
            (HText "Per_Case", [CNum 1; CNum 1]);
            (HText "UOM", [CText ""; CText ""])]
           (Some [(HText "Component", [CText "Cap"; CText "Bottle"]);
                  (HText "On_Hand", [CNum 5; CNum 10])])
           "Formula").
  vm_compute. reflexivity.
Defined.

(** X10: in a workbook whose formula sheet and inventory sheets have text
    headers only, when several headers of the formula sheet normalise to
    per_case, the last of them gives the Per_Case column, and the load
    succeeds. *)
Theorem last_per_case_header_wins
    (lower strip : string -> string) (wb : workbook) (pick : string)
    (pre post : sheet) (c : header * list cell) :
  pick_formula lower wb = Some (pick, (pre ++ c :: post)%list) ->
  (forall c', In c' (pre ++ c :: post)%list -> fst c' <> HOther) ->
  (forall ns, In ns wb -> lower (fst ns) = "inventory" ->
              forall c', In c' (snd ns) -> fst c' <> HOther) ->
  header_key lower strip (fst c) = Some "per_case" ->
  (forall c', In c' post -> header_key lower strip (fst c') <> Some "per_case") ->
  exists comp uom onhand_df,
    load_onhand lower strip wb = Some onhand_df
    /\ load_components_and_onhand lower strip wb
       = Loaded [(HText "Component", comp); (HText "Per_Case", snd c); (HText "UOM", uom)]
                onhand_df pick.
Proof.
  intros Hp Htext Hinv Hk Hpost.
  rewrite (load_after_pick lower strip wb pick _ Hp).
  rewrite (cols_get_last lower strip pre post c "per_case" Hk Hpost).
  assert (Et : text_headers (pre ++ c :: post)%list = true).
  { destruct (text_headers (pre ++ c :: post)%list) eqn:E; [reflexivity |].
    apply text_headers_false in E. destruct E as (c' & Hc' & E).
    exfalso. exact (Htext c' Hc' E). }
  rewrite Et.
  destruct (load_onhand_inventory_text lower strip wb Hinv) as [onhand_df Eo].
  rewrite Eo.
  destruct (pre ++ c :: post)%list as [| first df'] eqn:Edf;
    [destruct pre; discriminate |].
  eexists _, _, onhand_df. split; reflexivity.
Qed.

Lemma last_per_case_header_wins_witness :
  exists comp uom onhand_df,
    load_onhand ascii_lower ascii_strip sample_workbook = Some onhand_df
    /\ load_components_and_onhand ascii_lower ascii_strip sample_workbook
       = Loaded [(HText "Component", comp); (HText "Per_Case", [CNum 1; CNum 1]);
                 (HText "UOM", uom)]
                onhand_df "Formula".
Proof.
  apply (last_per_case_header_wins ascii_lower ascii_strip sample_workbook "Formula"
           [(HText "Component", [CText "Bottle"; CText "Cap"]);
            (HText "per_case", [CNum 2; CNum 1]);
            (HText "Note", [CText "glass"; CMissing])]
           [] (HText "PER_CASE", [CNum 1; CNum 1])).
  - reflexivity.
  - simpl. intros c' [<- | [<- | [<- | [<- | []]]]]; discriminate.
  - simpl. intros ns [<- | [<- | []]] _ c'; simpl.
    + intros [<- | [<- | []]]; discriminate.
    + intros [<- | [<- | [<- | [<- | []]]]]; discriminate.
  - reflexivity.
  - intros c' [].
Defined.

(** ** Snapshots *)

Section Snapshot.

Variables lower strip : string -> string.
Hypothesis Hpy : python_str lower strip.

Lemma snapshot_formula_cols (d : list Row.row) :
  cols_get lower strip (snapshot_formula d) "component"
  = Some (HText "Component", List.map (fun r => CText (Row.Component r)) d)
  /\ cols_get lower strip (snapshot_formula d) "per_case"
     = Some (HText "Per_Case", List.map (fun r => CNum (Row.Per_Case r)) d)
  /\ cols_get lower strip (snapshot_formula d) "uom"
     = Some (HText "UOM", List.map Row.UOM d).
Proof.
  destruct Hpy as (Hc & Hu & Ho & Hp & Hr & Hm & Hi).
  unfold cols_get, key_is, header_key, snapshot_formula. simpl.
  rewrite Hc, Hu, Hp. simpl.
  repeat split; reflexivity.
Qed.

Lemma snapshot_inventory_cols (d : list Row.row) :
  cols_get lower strip (snapshot_inventory d) "component"
  = Some (HText "Component", List.map (fun r => CText (Row.Component r)) d)
  /\ cols_get lower strip (snapshot_inventory d) "on_hand"
     = Some (HText "On_Hand", List.map (fun r => CNum (Row.On_Hand r)) d).
Proof.
  destruct Hpy as (Hc & Hu & Ho & Hp & Hr & Hm & Hi).
  unfold cols_get, key_is, header_key, snapshot_inventory. simpl.
  rewrite Hc, Hu, Ho, Hp, Hr, Hm. simpl.
  split; reflexivity.
Qed.

Lemma load_snapshot (formula_name : option string) (d : list Row.row) :
  lower (snapshot_name formula_name) <> "inventory" ->
  load_components_and_onhand lower strip (make_snapshot formula_name d)
  = Loaded [(HText "Component", List.map (fun r => CText (Row.Component r)) d);
            (HText "Per_Case", List.map (fun r => CNum (Row.Per_Case r)) d);
            (HText "UOM", List.map Row.UOM d)]
           (Some [(HText "Component", List.map (fun r => CText (Row.Component r)) d);
                  (HText "On_Hand", List.map (fun r => CNum (Row.On_Hand r)) d)])
           (snapshot_name formula_name).
Proof.
  intros Hname.
  destruct (snapshot_formula_cols d) as (Fc & Fp & Fu).
  destruct (snapshot_inventory_cols d) as (Ic & Io).
  assert (Hinv : lower "INVENTORY" = "inventory") by apply Hpy.
  assert (Hpick : pick_formula lower (make_snapshot formula_name d)
                  = Some (snapshot_name formula_name, snapshot_formula d)).
  { unfold pick_formula, make_snapshot. simpl.
    destruct (formula_like lower (snapshot_name formula_name)); [reflexivity |].
    unfold formula_like. rewrite Hinv. reflexivity. }
  assert (Honhand : load_onhand lower strip (make_snapshot formula_name d)
                    = Some (Some [(HText "Component",
                                   List.map (fun r => CText (Row.Component r)) d);
                                  (HText "On_Hand",
                                   List.map (fun r => CNum (Row.On_Hand r)) d)])).
  { unfold load_onhand, make_snapshot. simpl.
    rewrite (proj2 (String.eqb_neq _ _) Hname), Hinv. simpl.
    change (text_headers (snapshot_inventory d)) with true. cbv iota.
    rewrite Ic, Io. reflexivity. }
  unfold load_components_and_onhand. rewrite Hpick.
  change (text_headers (snapshot_formula d)) with true. cbv iota.
  rewrite Fc, Fp, Fu, Honhand. reflexivity.
Qed.

End Snapshot.

Lemma formula_rows_of_display (d : list Row.row) :
  formula_rows (List.map (fun r => CText (Row.Component r)) d)
               (List.map (fun r => CNum (Row.Per_Case r)) d)
               (List.map Row.UOM d)
  = Some (List.map (fun r => Formula.mk (Row.Component r) (CNum (Row.Per_Case r))
                                        (Row.UOM r)) d).
Proof. induction d as [| r d IH]; simpl; [reflexivity | rewrite IH; reflexivity]. Qed.

Lemma stock_rows_of_display (d : list Row.row) :
  stock_rows (List.map (fun r => CText (Row.Component r)) d)
             (List.map (fun r => CNum (Row.On_Hand r)) d)
  = Some (List.map (fun r => Stock.mk (Row.Component r) (CNum (Row.On_Hand r))) d).
Proof. induction d as [| r d IH]; simpl; [reflexivity | rewrite IH; reflexivity]. Qed.

(** X11: loading the sheets of a snapshot gives back the columns of the display
    table: its Component, Per_Case and UOM as the components, its Component
    and On_Hand as the on-hand table, and the name the formula sheet was
    written under. *)
Theorem load_of_snapshot
    (lower strip : string -> string) (formula_name : option string)
    (display_df : list Row.row) :
  python_str lower strip ->
  lower (snapshot_name formula_name) <> "inventory" ->
  exists components onhand_df,
    load_components_and_onhand lower strip (make_snapshot formula_name display_df)
    = Loaded components (Some onhand_df) (snapshot_name formula_name)
    /\ components_rows components
       = Some (List.map (fun r => Formula.mk (Row.Component r) (CNum (Row.Per_Case r))
                                             (Row.UOM r)) display_df)
    /\ onhand_rows onhand_df
       = Some (List.map (fun r => Stock.mk (Row.Component r) (CNum (Row.On_Hand r)))
                        display_df).
Proof.
  intros Hpy Hname. eexists _, _.
  split; [apply (load_snapshot lower strip Hpy formula_name display_df Hname) |].
  split; [apply formula_rows_of_display | apply stock_rows_of_display].
Qed.

Lemma python_str_ascii : python_str ascii_lower ascii_strip.
Proof. repeat split; reflexivity. Qed.

Lemma load_of_snapshot_witness :
  exists components onhand_df,
    load_components_and_onhand ascii_lower ascii_strip
      (make_snapshot (Some "Formula") (display (reconcile Sample.formula (Some Sample.stock) 4%float)))
    = Loaded components (Some onhand_df) (snapshot_name (Some "Formula"))
    /\ components_rows components
       = Some (List.map (fun r => Formula.mk (Row.Component r) (CNum (Row.Per_Case r))
                                             (Row.UOM r))
                        (display (reconcile Sample.formula (Some Sample.stock) 4%float)))
    /\ onhand_rows onhand_df
       = Some (List.map (fun r => Stock.mk (Row.Component r) (CNum (Row.On_Hand r)))
                        (display (reconcile Sample.formula (Some Sample.stock) 4%float))).
Proof.
  apply (load_of_snapshot ascii_lower ascii_strip (Some "Formula")
           (display (reconcile Sample.formula (Some Sample.stock) 4%float))).
  - repeat split; reflexivity.
  - vm_compute. discriminate.
Defined.

Section Recompute.

Lemma NoDup_map_eq {A B} (f : A -> B) (l : list A) (x y : A) :
  List.NoDup (List.map f l) -> In x l -> In y l -> f x = f y -> x = y.
Proof.
  induction l as [| a l IH]; simpl; intros Hnd Hx Hy E; [destruct Hx |].
  inversion Hnd as [| b bs Hnotin Hnd']; subst.
  destruct Hx as [<- | Hx], Hy as [<- | Hy]; auto.
  - exfalso. apply Hnotin. rewrite E. apply in_map. exact Hy.
  - exfalso. apply Hnotin. rewrite <- E. apply in_map. exact Hx.
Qed.

(** A sorted table with pairwise distinct keys is left as it is. *)
Lemma display_sorted_distinct (d : list Row.row) :
  StronglySorted component_le d ->
  List.NoDup (List.map Row.Component d) ->
  display d = d.
Proof.
  intros Hs Hnd. apply (StronglySorted_unique_strong component_le).
  - intros r1 r2 H1 H2 L12 L21.
    apply list_elem_of_In in H1, H2.
    apply (NoDup_map_eq Row.Component d); auto.
    + eapply Permutation_in; [apply display_Permutation | exact H1].
    + apply String.leb_antisym; assumption.
  - apply display_StronglySorted.
  - exact Hs.
  - apply display_Permutation.
Qed.

Lemma derive_snapshot_row (q : float) (m : Merged.row) :
  derive q (snapshot_row (derive q m)) = derive q m.
Proof.
  unfold derive, snapshot_row. simpl. rewrite !normalize_idempotent. reflexivity.
Qed.

Lemma merge_snapshot_rows (d : list Row.row) :
  List.NoDup (List.map Row.Component d) ->
  merge (List.map (fun r => Formula.mk (Row.Component r) (CNum (Row.Per_Case r))
                                       (Row.UOM r)) d)
        (List.map (fun r => Stock.mk (Row.Component r) (CNum (Row.On_Hand r))) d)
  = List.map snapshot_row d.
Proof.
  intros Hnd.
  set (toF := fun r => Formula.mk (Row.Component r) (CNum (Row.Per_Case r)) (Row.UOM r)).
  replace (List.map (fun r => Stock.mk (Row.Component r) (CNum (Row.On_Hand r))) d)
    with (edited_onhand (List.map snapshot_row d))
    by (unfold edited_onhand; rewrite List.map_map; reflexivity).
  apply (merge_edited (fun f => [with_on_hand f CMissing])).
  - rewrite List.map_map. exact Hnd.
  - intros f. split; [discriminate |]. intros m [<- | []]. eexists. reflexivity.
  - clear Hnd. induction d as [| r d IH]; simpl; constructor; auto.
    repeat split.
Qed.

Lemma reconcile_snapshot_rows components onhand_df (q : float) :
  List.NoDup (List.map Row.Component (display (reconcile components onhand_df q))) ->
  reconcile
    (List.map (fun r => Formula.mk (Row.Component r) (CNum (Row.Per_Case r))
                                   (Row.UOM r))
              (display (reconcile components onhand_df q)))
    (Some (List.map (fun r => Stock.mk (Row.Component r) (CNum (Row.On_Hand r)))
                    (display (reconcile components onhand_df q))))
    q
  = display (reconcile components onhand_df q).
Proof.
  intros Hnd. unfold reconcile at 1. unfold attach_on_hand.
  rewrite (merge_snapshot_rows _ Hnd), List.map_map.
  rewrite <- (List.map_id (display (reconcile components onhand_df q))) at 2.
  apply List.map_ext_in. intros r Hr.
  assert (Hr' : In r (reconcile components onhand_df q))
    by (eapply Permutation_in; [apply display_Permutation | exact Hr]).
  unfold reconcile in Hr'. apply in_map_iff in Hr'. destruct Hr' as (m & <- & _).
  apply derive_snapshot_row.
Qed.

End Recompute.

(** X12: when the formula sheet is not written under a name that lowercases
    to inventory, the sheets of a snapshot of a display table with pairwise
    distinct Component values, loaded and computed again for the same order
    size, give the display table back, row for row. *)
Theorem recompute_from_snapshot
    (lower strip : string -> string) (formula_name : option string)
    (components : list Formula.row) (onhand_df : option (list Stock.row))
    (cases_sold : float) :
  python_str lower strip ->
  lower (snapshot_name formula_name) <> "inventory" ->
  List.NoDup (List.map Row.Component
                (display (reconcile components onhand_df cases_sold))) ->
  exists sheet_c sheet_o comps stock,
    load_components_and_onhand lower strip
      (make_snapshot formula_name (display (reconcile components onhand_df cases_sold)))
    = Loaded sheet_c (Some sheet_o) (snapshot_name formula_name)
    /\ components_rows sheet_c = Some comps
    /\ onhand_rows sheet_o = Some stock
    /\ reconcile comps (Some stock) cases_sold
       = display (reconcile components onhand_df cases_sold)
    /\ display (reconcile comps (Some stock) cases_sold)
       = display (reconcile components onhand_df cases_sold).
Proof.
  intros Hpy Hname Hnd.
  pose proof (reconcile_snapshot_rows components onhand_df cases_sold Hnd) as Hrec.
  eexists _, _, _, _.
  split; [apply (load_snapshot lower strip Hpy formula_name _ Hname) |].
  split; [apply formula_rows_of_display |].
  split; [apply stock_rows_of_display |].
  split; [exact Hrec |].
  rewrite Hrec. apply display_sorted_distinct; [apply display_StronglySorted | exact Hnd].
Qed.

Lemma recompute_from_snapshot_witness :
  exists sheet_c sheet_o comps stock,
    load_components_and_onhand ascii_lower ascii_strip
      (make_snapshot None (display (reconcile Sample.formula (Some Sample.stock) 4%float)))
    = Loaded sheet_c (Some sheet_o) (snapshot_name None)
    /\ components_rows sheet_c = Some comps
    /\ onhand_rows sheet_o = Some stock
    /\ reconcile comps (Some stock) 4%float
       = display (reconcile Sample.formula (Some Sample.stock) 4%float)
    /\ display (reconcile comps (Some stock) 4%float)
       = display (reconcile Sample.formula (Some Sample.stock) 4%float).
Proof.
  apply (recompute_from_snapshot ascii_lower ascii_strip None
           Sample.formula (Some Sample.stock) 4%float).
  - repeat split; reflexivity.
  - vm_compute. discriminate.
  - vm_compute. repeat constructor; simpl; intuition discriminate.
Defined.

(** ** What the page computes from the editing table *)

(** X5: when no two components have the same name, the results are computed
    row by row from the editing table as the user left it: one result row
    per row of the table, in table order, with the On_Hand typed in that
    row, made numeric. *)
Theorem results_follow_edited_table
    (comps : list Formula.row) (onhand : option (list Stock.row))
    (edited : list Merged.row) (cases_sold : float) :
  List.NoDup (List.map Formula.Component comps) ->
  edit_of (base comps onhand) edited ->
  reconcile comps (Some (edited_onhand edited)) cases_sold
  = List.map (derive cases_sold) edited
  /\ Forall2 (fun e r => Row.Component r = Merged.Component e
                         /\ Row.On_Hand r = normalize (Merged.On_Hand e)
                         /\ Row.Per_Case r = normalize (Merged.Per_Case e))
             edited
             (reconcile comps (Some (edited_onhand edited)) cases_sold).
Proof.
  intros Hnd He. rewrite (reconcile_edited comps onhand edited cases_sold Hnd He).
  split; [reflexivity |].
  clear He. induction edited as [| e edited IH]; simpl; constructor; auto.
Qed.

Lemma results_follow_edited_table_witness :
  reconcile Sample.formula
    (Some (edited_onhand [Merged.mk "Bottle" (CNum 1) (CText "ea") (CNum 3);
                          Merged.mk "Cap" (CNum 1) (CText "ea") CMissing]))
    4%float
  = List.map (derive 4%float)
      [Merged.mk "Bottle" (CNum 1) (CText "ea") (CNum 3);
       Merged.mk "Cap" (CNum 1) (CText "ea") CMissing]
  /\ Forall2 (fun e r => Row.Component r = Merged.Component e
                         /\ Row.On_Hand r = normalize (Merged.On_Hand e)
                         /\ Row.Per_Case r = normalize (Merged.Per_Case e))
             [Merged.mk "Bottle" (CNum 1) (CText "ea") (CNum 3);
              Merged.mk "Cap" (CNum 1) (CText "ea") CMissing]
             (reconcile Sample.formula
                (Some (edited_onhand [Merged.mk "Bottle" (CNum 1) (CText "ea") (CNum 3);
                                      Merged.mk "Cap" (CNum 1) (CText "ea") CMissing]))
                4%float).
Proof.
  apply (results_follow_edited_table Sample.formula (Some Sample.stock)).
  - repeat constructor; simpl; intuition discriminate.
  - repeat constructor.
Defined.

(** X6: when no two components have the same name, the editing table left as
    it was seeded gives the results of the uploaded on-hand table. *)
Theorem unedited_table_same_results
    (comps : list Formula.row) (onhand : option (list Stock.row))
    (cases_sold : float) :
  List.NoDup (List.map Formula.Component comps) ->
  compute_results comps (Some (edited_onhand (base comps onhand))) cases_sold
  = compute_results comps onhand cases_sold.
Proof.
  intros Hnd. unfold compute_results.
  rewrite (reconcile_edited comps onhand _ cases_sold Hnd (edit_of_refl _)).
  rewrite reconcile_base. reflexivity.
Qed.

Lemma unedited_table_same_results_witness :
  compute_results Sample.formula
    (Some (edited_onhand (base Sample.formula (Some Sample.stock_no_cap)))) 3%float
  = compute_results Sample.formula (Some Sample.stock_no_cap) 3%float.
Proof.
  apply (unedited_table_same_results Sample.formula (Some Sample.stock_no_cap)).
  repeat constructor; simpl; intuition discriminate.
Defined.

(** ** Order size zero, and frames already in the heap *)

(** X3: with an order of zero cases, a material is reported short only if its
    On_Hand is negative. *)
Theorem zero_order_shortages_have_negative_stock
    (components : list Formula.row) (onhand_df : option (list Stock.row)) :
  Forall (fun r => (Row.On_Hand r <? 0)%float = true)
         (shortages (reconcile components onhand_df 0%float)).
Proof.
  apply List.Forall_forall. intros r Hr.
  unfold shortages in Hr. apply filter_In in Hr. destruct Hr as [Hr Hlt].
  unfold reconcile in Hr. apply in_map_iff in Hr. destruct Hr as (m & <- & _).
  unfold derive in *. simpl in *.
  destruct (normalize (Merged.On_Hand m) <? 0)%float eqn:E; [reflexivity |].
  rewrite (remaining_zero_order _ _ E) in Hlt. discriminate.
Qed.

(** X4: whatever the references passed and whether the call returns or raises,
    every frame that was in the heap before a call of [compute_results] is
    in it unchanged afterwards. *)
Theorem compute_results_never_writes_old_frames
    (h : list Store.frame) (components : nat) (onhand_df : option nat)
    (cases_sold : float) :
  take (length h) (snd (Store.compute_results components onhand_df cases_sold h)) = h
  /\ (length h <= length (snd (Store.compute_results components onhand_df cases_sold h)))%nat.
Proof.
  destruct (keeps_compute_results (length h) components onhand_df cases_sold h
              (Nat.le_refl _)) as (Ht & Hlen & _).
  rewrite (firstn_all h) in Ht. split; assumption.
Qed.

(** ** Row counts *)

Section RowCounts.

Lemma merge_length_sum (F : list Formula.row) (S : list Stock.row) :
  length (merge F S)
  = list_sum (List.map (fun f => Nat.max 1 (length (matching f S))) F).
Proof.
  unfold merge. induction F as [| f F IH]; simpl; [reflexivity |].
  rewrite length_app, merge_row_length, IH. reflexivity.
Qed.

Lemma base_group_matches (S : list Stock.row) (f f' : Formula.row) :
  Formula.Component f' = Formula.Component f ->
  (1 <= length (matching f
                  (edited_onhand (List.map numeric_on_hand (merge_row S f')))))%nat.
Proof.
  intros E. unfold matching, edited_onhand.
  rewrite filter_all.
  - rewrite !length_map, merge_row_length. lia.
  - intros s Hs. apply in_map_iff in Hs. destruct Hs as (m & <- & Hm).
    apply in_map_iff in Hm. destruct Hm as (m0 & <- & Hm0). simpl.
    apply String.eqb_eq. rewrite <- E.
    apply in_merge_row in Hm0.
    destruct Hm0 as [(s & _ & _ & ->) | (_ & ->)]; reflexivity.
Qed.

Lemma matching_app (f : Formula.row) (S1 S2 : list Stock.row) :
  matching f (S1 ++ S2) = (matching f S1 ++ matching f S2)%list.
Proof. unfold matching. apply List.filter_app. Qed.

Lemma edited_onhand_app (l1 l2 : list Merged.row) :
  edited_onhand (l1 ++ l2) = (edited_onhand l1 ++ edited_onhand l2)%list.
Proof. unfold edited_onhand. apply List.map_app. Qed.

Lemma base_app comps1 comps2 onhand :
  base (comps1 ++ comps2) onhand = (base comps1 onhand ++ base comps2 onhand)%list.
Proof. rewrite !base_flat_map. apply flat_map_app. Qed.

Lemma base_cons f comps onhand :
  base (f :: comps) onhand
  = (List.map numeric_on_hand
       (merge_row (match onhand with Some rows => rows | None => [] end) f)
     ++ base comps onhand)%list.
Proof. rewrite !base_flat_map. reflexivity. Qed.

Lemma list_sum_ge_length {A} (g : A -> nat) (l : list A) :
  (forall a, 1 <= g a)%nat -> (length l <= list_sum (List.map g l))%nat.
Proof.
  intros Hg. induction l as [| a l IH]; simpl; [lia |]. specialize (Hg a). lia.
Qed.

End RowCounts.

(** X13: the join has, for each formula entry, as many rows as the stock table
    has rows of its material, and one row when it has none. *)
Theorem merge_row_count (F : list Formula.row) (S : list Stock.row) (cases_sold : float) :
  length (merge F S)
  = list_sum (List.map (fun f => Nat.max 1 (length (matching f S))) F)
  /\ length (reconcile F (Some S) cases_sold)
     = list_sum (List.map (fun f => Nat.max 1 (length (matching f S))) F)
  /\ (length F <= length (reconcile F (Some S) cases_sold))%nat.
Proof.
  pose proof (merge_length_sum F S) as H.
  split; [exact H |]. unfold reconcile, attach_on_hand. rewrite length_map.
  split; [exact H |]. apply merge_length_ge.
Qed.

(** X14: when a component name occurs twice in the components, the page, fed
    its own editing table, shows more result rows than there are
    components. *)
Theorem repeated_component_multiplies_rows
    (pre mid post : list Formula.row) (f1 f2 : Formula.row)
    (onhand : option (list Stock.row)) (cases_sold : float) :
  Formula.Component f1 = Formula.Component f2 ->
  (length (pre ++ f1 :: mid ++ f2 :: post)
   < length (reconcile (pre ++ f1 :: mid ++ f2 :: post)
               (Some (edited_onhand (base (pre ++ f1 :: mid ++ f2 :: post) onhand)))
               cases_sold))%nat.
Proof.
  intros E. unfold reconcile, attach_on_hand. rewrite length_map, merge_length_sum.
  set (S' := edited_onhand (base (pre ++ f1 :: mid ++ f2 :: post) onhand)).
  assert (H1 : (2 <= length (matching f1 S'))%nat).
  { subst S'. rewrite base_app, base_cons, base_app, base_cons.
    rewrite !edited_onhand_app, !matching_app, !length_app.
    pose proof (base_group_matches
                  (match onhand with Some rows => rows | None => [] end) f1 f1 eq_refl).
    pose proof (base_group_matches
                  (match onhand with Some rows => rows | None => [] end) f1 f2
                  (eq_sym E)).
    lia. }
  rewrite !List.map_app, !list_sum_app. simpl.
  rewrite !List.map_app, !list_sum_app. simpl.
  rewrite !length_app. simpl. rewrite !length_app. simpl.
  assert (Hg : forall f, (1 <= Nat.max 1 (length (matching f S')))%nat)
    by (intros; lia).
  pose proof (list_sum_ge_length (fun f => Nat.max 1 (length (matching f S'))) pre Hg).
  pose proof (list_sum_ge_length (fun f => Nat.max 1 (length (matching f S'))) mid Hg).
  pose proof (list_sum_ge_length (fun f => Nat.max 1 (length (matching f S'))) post Hg).
  lia.
Qed.

Lemma repeated_component_multiplies_rows_witness :
  (length ([] ++ Sample.cap :: [Sample.bottle] ++ Sample.cap :: [])
   < length (reconcile ([] ++ Sample.cap :: [Sample.bottle] ++ Sample.cap :: [])
               (Some (edited_onhand
                        (base ([] ++ Sample.cap :: [Sample.bottle] ++ Sample.cap :: [])
                              (Some Sample.stock))))
               4%float))%nat.
Proof.
  apply (repeated_component_multiplies_rows [] [Sample.bottle] [] Sample.cap Sample.cap).
  reflexivity.
Defined.
